(** * Infinity Pricing Engine: the four calculators

    A shallow embedding of [calculator/fair-pricing.js],
    [calculator/capacitor-model.js], [calculator/alc-market.js] and
    [calculator/dynamic-pricing.js], with the properties their
    specification states about them.

    Numbers.  A JavaScript number is modelled by [num]: a finite value is
    an exact rational, and the three special values [Infinity],
    [-Infinity] and [NaN] are kept, because the code reaches them by
    dividing by zero.  Arithmetic on finite values is exact (binary64
    rounding and the sign of zero are not modelled); the special values
    follow IEEE 754. *)

From Stdlib Require Import QArith Qround Qabs Lqa ZArith Lia String Bool List.
Import ListNotations.

Open Scope Q_scope.

(** ** JavaScript numbers *)

Module JS.

Inductive num : Type :=
| Fin (q : Q)
| PInf
| NInf
| NaN.

Definition Qltb (a b : Q) : bool := negb (Qle_bool b a).

Definition neg (a : num) : num :=
  match a with
  | Fin q => Fin (- q)
  | PInf => NInf
  | NInf => PInf
  | NaN => NaN
  end.

Definition add (a b : num) : num :=
  match a, b with
  | NaN, _ | _, NaN => NaN
  | Fin x, Fin y => Fin (x + y)
  | PInf, NInf | NInf, PInf => NaN
  | PInf, _ | _, PInf => PInf
  | NInf, _ | _, NInf => NInf
  end.

Definition sub (a b : num) : num := add a (neg b).

(** The product of an infinity with a finite factor [q]. *)
Definition scale_inf (positive : bool) (q : Q) : num :=
  if Qeq_bool q 0 then NaN
  else if Bool.eqb positive (Qltb 0 q) then PInf else NInf.

Definition mul (a b : num) : num :=
  match a, b with
  | NaN, _ | _, NaN => NaN
  | Fin x, Fin y => Fin (x * y)
  | PInf, Fin y | Fin y, PInf => scale_inf true y
  | NInf, Fin y | Fin y, NInf => scale_inf false y
  | PInf, PInf | NInf, NInf => PInf
  | PInf, NInf | NInf, PInf => NInf
  end.

(** Division.  A zero divisor counts as [+0]. *)
Definition div (a b : num) : num :=
  match a, b with
  | NaN, _ | _, NaN => NaN
  | Fin x, Fin y =>
      if Qeq_bool y 0 then
        if Qeq_bool x 0 then NaN
        else if Qltb 0 x then PInf else NInf
      else Fin (x / y)
  | Fin _, PInf | Fin _, NInf => Fin 0
  | PInf, Fin y => if Qltb y 0 then NInf else PInf
  | NInf, Fin y => if Qltb y 0 then PInf else NInf
  | PInf, PInf | PInf, NInf | NInf, PInf | NInf, NInf => NaN
  end.

(** [a < b]; every comparison with [NaN] is false. *)
Definition ltb (a b : num) : bool :=
  match a, b with
  | NaN, _ | _, NaN => false
  | Fin x, Fin y => Qltb x y
  | NInf, Fin _ | NInf, PInf | Fin _, PInf => true
  | _, _ => false
  end.

Definition gtb (a b : num) : bool := ltb b a.

(** Numeric equality of two numbers ([NaN] is equal to nothing). *)
Definition eqb (a b : num) : bool :=
  match a, b with
  | Fin x, Fin y => Qeq_bool x y
  | PInf, PInf | NInf, NInf => true
  | _, _ => false
  end.

Definition is_NaN (a : num) : bool :=
  match a with NaN => true | _ => false end.

(** Truthiness of a number, as [||] and [!] see it. *)
Definition truthy (a : num) : bool :=
  match a with
  | Fin q => negb (Qeq_bool q 0)
  | NaN => false
  | PInf | NInf => true
  end.

(** [a || b] on an optional number ([None] is [undefined]). *)
Definition or_default (a : option num) (b : num) : num :=
  match a with
  | Some v => if truthy v then v else b
  | None => b
  end.

Module Math.

Definition abs (a : num) : num :=
  match a with
  | Fin q => Fin (Qabs q)
  | PInf | NInf => PInf
  | NaN => NaN
  end.

Definition min (a b : num) : num :=
  if is_NaN a || is_NaN b then NaN
  else if ltb b a then b else a.

Definition max (a b : num) : num :=
  if is_NaN a || is_NaN b then NaN
  else if ltb a b then b else a.

(** [Math.min(...xs)] and [Math.max(...xs)]. *)
Definition min_of (xs : list num) : num := fold_left min xs PInf.
Definition max_of (xs : list num) : num := fold_left max xs NInf.

(** [Math.round]: the nearest integer, a tie going up. *)
Definition round (a : num) : num :=
  match a with
  | Fin q => Fin (inject_Z (Qfloor (q + (1 # 2))))
  | _ => a
  end.

End Math.

(** The string that [x.toFixed(digits)] returns, kept as the number of
    fraction digits and the value the string denotes.  A finite value is
    rounded to the nearest multiple of [10^-digits], a tie going away
    from zero; from [1e21] on the value is printed as it is. *)
Inductive decimal : Type :=
| Decimal (digits : nat) (value : num).

Definition pow10 (digits : nat) : Q := inject_Z (10 ^ Z.of_nat digits).

Definition round_half_up (digits : nat) (q : Q) : Q :=
  inject_Z (Qfloor (q * pow10 digits + (1 # 2))) / pow10 digits.

Definition toFixed (digits : nat) (a : num) : decimal :=
  match a with
  | Fin q =>
      if Qle_bool (inject_Z (10 ^ 21)) (Qabs q) then Decimal digits (Fin q)
      else if Qltb q 0 then Decimal digits (Fin (- round_half_up digits (- q)))
      else Decimal digits (Fin (round_half_up digits q))
  | _ => Decimal digits a
  end.

Definition parseFloat (s : decimal) : num :=
  match s with Decimal _ v => v end.

End JS.

Import JS.

Declare Scope js_scope.
Delimit Scope js_scope with js.
Bind Scope js_scope with num.
Infix "+" := add : js_scope.
Infix "-" := sub : js_scope.
Infix "*" := mul : js_scope.
Infix "/" := div : js_scope.
Infix "<?" := ltb (at level 70) : js_scope.
Infix ">?" := gtb (at level 70) : js_scope.

(** ** calculator/fair-pricing.js *)

Module FairPricing.

(** [context], the optional second argument of [validatePrice]. *)
Module Context.
Record t : Type := mk { original_price : option num }.
Definition empty : t := {| original_price := None |}.
End Context.

(** [marketData], as [ensureFairMarket] destructures it; an absent
    property is [None]. *)
Module MarketData.
Record t : Type := mk {
  averagePrice : option num;
  medianPrice : option num;
  competitorPrices : option (list num)
}.
Definition empty : t :=
  {| averagePrice := None; medianPrice := None; competitorPrices := None |}.
End MarketData.

Record t : Type := mk {
  priceFloor : num;
  priceCeiling : num;
  maxChangeRate : num;
  priceHistory : list num;
  fairnessScore : num
}.

Definition constructor : t :=
  {| priceFloor := Fin 0.01;
     priceCeiling := Fin 10000;
     maxChangeRate := Fin 0.25;
     priceHistory := [];
     fairnessScore := Fin 1 |}.

Definition set_priceHistory (this : t) (h : list num) : t :=
  {| priceFloor := priceFloor this;
     priceCeiling := priceCeiling this;
     maxChangeRate := maxChangeRate this;
     priceHistory := h;
     fairnessScore := fairnessScore this |}.

Definition set_fairnessScore (this : t) (s : num) : t :=
  {| priceFloor := priceFloor this;
     priceCeiling := priceCeiling this;
     maxChangeRate := maxChangeRate this;
     priceHistory := priceHistory this;
     fairnessScore := s |}.

(** The three template strings pushed on [suggestions], each with the
    number it interpolates. *)
Inductive suggestion : Type :=
| Minimum_price_is (floor : num)
| Maximum_price_is (ceiling : num)
| Price_change_limited_to (percent : num).

Record Validation : Type := mkValidation {
  validated_price : num;
  original_price : num;
  is_fair : bool;
  issues : list string;
  suggestions : list suggestion;
  fairness_score : decimal
}.

(** [xs.length] as a number. *)
Definition length_num {A : Type} (xs : list A) : num :=
  Fin (inject_Z (Z.of_nat (length xs))).

Definition calculateFairnessScore (this : t) (issues : list string)
  : decimal * t :=
  let penaltyPerIssue := Fin 0.2 in
  let score :=
    Math.max (Fin 1.0 - (length_num issues * penaltyPerIssue))%js (Fin 0) in
  let this := set_fairnessScore this score in
  (toFixed 2 (fairnessScore this), this).

(** [xs[xs.length - 1]]; reading out of range gives [undefined], which
    every use below turns into a number. *)
Definition last_entry (xs : list num) : num :=
  nth (length xs - 1) xs NaN.

Definition validatePrice (this : t) (price : num) (context : Context.t)
  : Validation * t :=
  let issues : list string := [] in
  let suggestions : list suggestion := [] in
  let '(issues, suggestions, price) :=
    if (price <? priceFloor this)%js then
      (issues ++ ["price_too_low"%string],
       suggestions ++ [Minimum_price_is (priceFloor this)],
       priceFloor this)
    else (issues, suggestions, price) in
  let '(issues, suggestions, price) :=
    if (price >? priceCeiling this)%js then
      (issues ++ ["price_too_high"%string],
       suggestions ++ [Maximum_price_is (priceCeiling this)],
       priceCeiling this)
    else (issues, suggestions, price) in
  let '(issues, suggestions, price) :=
    if (0 <? length (priceHistory this))%nat then
      let lastPrice := last_entry (priceHistory this) in
      let changeRate := (Math.abs (price - lastPrice) / lastPrice)%js in
      if (changeRate >? maxChangeRate this)%js then
        let maxChange := (lastPrice * maxChangeRate this)%js in
        (issues ++ ["price_change_too_rapid"%string],
         suggestions
           ++ [Price_change_limited_to (maxChangeRate this * Fin 100)%js],
         if (price >? lastPrice)%js
         then (lastPrice + maxChange)%js
         else (lastPrice - maxChange)%js)
      else (issues, suggestions, price)
    else (issues, suggestions, price) in
  let history := priceHistory this ++ [price] in
  let history :=
    if (100 <? length history)%nat then tl history else history in
  let this := set_priceHistory this history in
  let '(score, this) := calculateFairnessScore this issues in
  ({| validated_price := parseFloat (toFixed 2 price);
      original_price := or_default (Context.original_price context) price;
      is_fair := (length issues =? 0)%nat;
      issues := issues;
      suggestions := suggestions;
      fairness_score := score |},
   this).

(** The two records [ensureFairMarket] returns:
    [{original_price, market_average, adjusted_price, deviation_percent,
      adjusted: true, reason: 'aligned_with_market_consensus'}] and
    [{price, market_average, deviation_percent,
      fair_market_confirmed: true,
      reason: 'within_acceptable_market_range'}]. *)
Inductive MarketCheck : Type :=
| Aligned (original_price : num)
          (market_average adjusted_price deviation_percent : decimal)
| Within_range (price : num) (market_average deviation_percent : decimal).

Definition adjusted (r : MarketCheck) : bool :=
  match r with Aligned _ _ _ _ => true | Within_range _ _ _ => false end.

Definition reason (r : MarketCheck) : string :=
  match r with
  | Aligned _ _ _ _ => "aligned_with_market_consensus"
  | Within_range _ _ _ => "within_acceptable_market_range"
  end.

Definition market_average (r : MarketCheck) : decimal :=
  match r with Aligned _ m _ _ | Within_range _ m _ => m end.

Definition deviation_percent (r : MarketCheck) : decimal :=
  match r with Aligned _ _ _ d | Within_range _ _ d => d end.

Definition default {A : Type} (d : A) (o : option A) : A :=
  match o with Some v => v | None => d end.

(** [allPrices] after the filter, [marketAverage] and [deviation], the
    three locals of [ensureFairMarket]. *)
Definition allPrices (proposedPrice : num) (marketData : MarketData.t)
  : list num :=
  let averagePrice := default proposedPrice (MarketData.averagePrice marketData) in
  let medianPrice := default proposedPrice (MarketData.medianPrice marketData) in
  let competitorPrices := default [] (MarketData.competitorPrices marketData) in
  let allPrices := [averagePrice; medianPrice] ++ competitorPrices in
  filter (fun p => (p >? Fin 0)%js) allPrices.

Definition marketAverage (allPrices : list num) : num :=
  (fold_left (fun sum p => sum + p) allPrices (Fin 0) / length_num allPrices)%js.

Definition deviation (proposedPrice marketAverage : num) : num :=
  (Math.abs (proposedPrice - marketAverage) / marketAverage)%js.

Definition ensureFairMarket (proposedPrice : num) (marketData : MarketData.t)
  : MarketCheck :=
  let allPrices := allPrices proposedPrice marketData in
  let marketAverage := marketAverage allPrices in
  let deviation := deviation proposedPrice marketAverage in
  if (deviation >? Fin 0.3)%js then
    Aligned proposedPrice
            (toFixed 2 marketAverage)
            (toFixed 2 marketAverage)
            (toFixed 1 (deviation * Fin 100)%js)
  else
    Within_range proposedPrice
                 (toFixed 2 marketAverage)
                 (toFixed 1 (deviation * Fin 100)%js).

Record ManipulationCheck : Type := mkManipulationCheck {
  manipulation_detected : bool;
  suspicious_patterns : option nat;
  confidence : string;
  recommendation : option string
}.

(** The first loop of [detectManipulation], entered at index [i] with
    [prev = priceSequence[i - 1]] and [rest] the entries from [i] on;
    the result tells whether the loop left through [break]. *)
Fixpoint inflation_loop (prev : num) (rest : list num)
         (consecutiveIncreases : nat) : bool :=
  match rest with
  | [] => false
  | x :: rest' =>
      let consecutiveIncreases :=
        if (x >? prev)%js then S consecutiveIncreases else O in
      if (5 <=? consecutiveIncreases)%nat then true
      else inflation_loop x rest' consecutiveIncreases
  end.

(** The loop from [i = 1] on; it does not run on fewer than two prices. *)
Definition inflation_check (priceSequence : list num) : bool :=
  match priceSequence with
  | [] => false
  | first :: rest => inflation_loop first rest 0
  end.

Definition detectManipulation (priceSequence : list num) : ManipulationCheck :=
  if (length priceSequence <? 5)%nat then
    {| manipulation_detected := false;
       suspicious_patterns := None;
       confidence := "insufficient_data";
       recommendation := None |}
  else
    let suspiciousPatterns := O in
    let suspiciousPatterns :=
      if inflation_check priceSequence
      then S suspiciousPatterns else suspiciousPatterns in
    let maxPrice := Math.max_of priceSequence in
    let minPrice := Math.min_of priceSequence in
    let volatility := ((maxPrice - minPrice) / minPrice)%js in
    let suspiciousPatterns :=
      if (volatility >? Fin 0.5)%js
      then S suspiciousPatterns else suspiciousPatterns in
    {| manipulation_detected := (0 <? suspiciousPatterns)%nat;
       suspicious_patterns := Some suspiciousPatterns;
       confidence :=
         if (1 <? suspiciousPatterns)%nat then "high"
         else if (0 <? suspiciousPatterns)%nat then "medium" else "low";
       recommendation :=
         Some (if (0 <? suspiciousPatterns)%nat
               then "manual_review_required"
               else "pricing_appears_fair")%string |}.

End FairPricing.

(** ** calculator/capacitor-model.js *)

Module CapacitorModel.

(** The part of the configuration the constructor reads,
    [config?.pricing_model?.balance_threshold]; each link may be absent. *)
Module Config.
Record pricing_model_t : Type := mkPricingModel {
  balance_threshold : option num
}.
Record t : Type := mk { pricing_model : option pricing_model_t }.
End Config.

Record t : Type := mk {
  charge : num;
  maxCharge : num;
  balanceThreshold : num;
  dischargeRate : num;
  chargeRate : num
}.

Definition constructor (config : option Config.t) : t :=
  {| charge := Fin 0.5;
     maxCharge := Fin 1.0;
     balanceThreshold :=
       or_default
         (match config with
          | Some c =>
              match Config.pricing_model c with
              | Some pm => Config.balance_threshold pm
              | None => None
              end
          | None => None
          end)
         (Fin 0.75);
     dischargeRate := Fin 0.1;
     chargeRate := Fin 0.05 |}.

Definition set_charge (this : t) (c : num) : t :=
  {| charge := c;
     maxCharge := maxCharge this;
     balanceThreshold := balanceThreshold this;
     dischargeRate := dischargeRate this;
     chargeRate := chargeRate this |}.

Definition getChargeStatus (this : t) : string :=
  if (charge this >? balanceThreshold this)%js then "high_charge"
  else if (charge this <? (Fin 1 - balanceThreshold this))%js then "low_charge"
  else "balanced".

Record PriceImpact : Type := mkPriceImpact {
  type : string;
  multiplier : decimal;
  reason : string;
  description : string
}.

Definition getPriceImpact (this : t) : PriceImpact :=
  let status := getChargeStatus this in
  if String.eqb status "high_charge" then
    let increase := ((charge this - balanceThreshold this) * Fin 0.2)%js in
    {| type := "increase";
       multiplier := toFixed 3 (Fin 1 + increase)%js;
       reason := "high_activity_detected";
       description := "prices_increase_slightly" |}
  else if String.eqb status "low_charge" then
    let decrease :=
      (((Fin 1 - balanceThreshold this) - charge this) * Fin 0.2)%js in
    {| type := "decrease";
       multiplier := toFixed 3 (Fin 1 - decrease)%js;
       reason := "low_activity_detected";
       description := "prices_decrease_slightly" |}
  else
    {| type := "stable";
       multiplier := Decimal 3 (Fin 1.000);
       reason := "balanced_activity";
       description := "fair_stable_pricing" |}.

(** The records [accumulateCharge], [dischargeOnPurchase] and
    [autoBalance] return. *)
Module Charged.
Record t : Type := mk {
  activity_level : decimal;
  charge_increase : decimal;
  current_charge : decimal;
  status : string;
  price_impact : PriceImpact
}.
End Charged.

Module Discharged.
Record t : Type := mk {
  purchase_size : decimal;
  discharge_amount : decimal;
  remaining_charge : decimal;
  status : string;
  price_impact : PriceImpact
}.
End Discharged.

Module Balanced.
Record t : Type := mk {
  target_charge : num;
  current_charge : decimal;
  auto_balancing : bool;
  status : string
}.
End Balanced.

Definition accumulateCharge (this : t) (activityLevel : num)
  : Charged.t * t :=
  let chargeIncrease := (activityLevel * chargeRate this)%js in
  let this :=
    set_charge this (Math.min (charge this + chargeIncrease)%js (maxCharge this)) in
  ({| Charged.activity_level := toFixed 2 activityLevel;
      Charged.charge_increase := toFixed 3 chargeIncrease;
      Charged.current_charge := toFixed 3 (charge this);
      Charged.status := getChargeStatus this;
      Charged.price_impact := getPriceImpact this |},
   this).

Definition dischargeOnPurchase (this : t) (purchaseSize : num)
  : Discharged.t * t :=
  let dischargeAmount := (purchaseSize * dischargeRate this)%js in
  let this :=
    set_charge this (Math.max (charge this - dischargeAmount)%js (Fin 0)) in
  ({| Discharged.purchase_size := toFixed 2 purchaseSize;
      Discharged.discharge_amount := toFixed 3 dischargeAmount;
      Discharged.remaining_charge := toFixed 3 (charge this);
      Discharged.status := getChargeStatus this;
      Discharged.price_impact := getPriceImpact this |},
   this).



Definition autoBalance (this : t) : Balanced.t * t :=
  let targetCharge := Fin 0.5 in
  let balanceRate := Fin 0.02 in
  let this :=
    if (charge this >? targetCharge)%js then
      set_charge this
        (charge this - Math.min (charge this - targetCharge)%js balanceRate)%js
    else if (charge this <? targetCharge)%js then
      set_charge this
        (charge this + Math.min (targetCharge - charge this)%js balanceRate)%js
    else this in
  ({| Balanced.target_charge := targetCharge;
      Balanced.current_charge := toFixed 3 (charge this);
      Balanced.auto_balancing := true;
      Balanced.status := "maintaining_fair_pricing" |},
   this).

(** One mutating call on the capacitor, and a sequence of them. *)
Inductive call : Type :=
| AccumulateCharge (activityLevel : num)
| DischargeOnPurchase (purchaseSize : num)
| AutoBalance.

Definition perform (this : t) (c : call) : t :=
  match c with
  | AccumulateCharge a => snd (accumulateCharge this a)
  | DischargeOnPurchase p => snd (dischargeOnPurchase this p)
  | AutoBalance => snd (autoBalance this)
  end.

Definition perform_all (this : t) (cs : list call) : t :=
  fold_left perform cs this.

End CapacitorModel.

(** ** calculator/alc-market.js *)

Module ALCMarket.

(** [pricingConfig.andy_lian_coin], without the two rate tables, which
    [adjustMarketValue] and [stabilizeMarket] do not read. *)
Module Config.
Record t : Type := mk {
  current_usd_value : num;
  daily_volume : num;
  trend_percent : num;
  volatility : num  (* market_forces.volatility *)
}.
End Config.

Record t : Type := mk {
  config : Config.t;
  currentValue : num;
  dailyVolume : num;
  trendPercent : num;
  volatility : num
}.

Definition constructor (pricingConfig : Config.t) : t :=
  {| config := pricingConfig;
     currentValue := Config.current_usd_value pricingConfig;
     dailyVolume := Config.daily_volume pricingConfig;
     trendPercent := Config.trend_percent pricingConfig;
     volatility := Config.volatility pricingConfig |}.

Record Adjustment : Type := mkAdjustment {
  old_value : decimal;
  new_value : decimal;
  change_percent : decimal;
  market_condition : string
}.

Definition adjustMarketValue (this : t) (supplyDemandRatio : num)
  : Adjustment * t :=
  let oldValue := currentValue this in
  let adjustment := ((supplyDemandRatio - Fin 1) * volatility this)%js in
  let newValue := (currentValue this + currentValue this * adjustment)%js in
  let trend := (((newValue - oldValue) / oldValue) * Fin 100)%js in
  let this :=
    {| config := config this;
       currentValue := newValue;
       dailyVolume := dailyVolume this;
       trendPercent := trend;
       volatility := volatility this |} in
  ({| old_value := toFixed 2 oldValue;
      new_value := toFixed 2 (currentValue this);
      change_percent := toFixed 2 (trendPercent this);
      market_condition :=
        if (supplyDemandRatio >? Fin 1)%js then "high_demand"
        else if (supplyDemandRatio <? Fin 1)%js then "abundant_supply"
        else "stable" |},
   this).

End ALCMarket.

(** ** calculator/dynamic-pricing.js *)

Module DynamicPricing.

(** What reading a property of one of the rate tables can give: nothing,
    a rate, or a member that the table, an object literal, inherits from
    [Object.prototype]. *)
Inductive value : Type :=
| VUndefined
| VNumber (n : num)
| VFunction (name : string)
| VObject.

(** The members of [Object.prototype]: its methods, and the accessor
    [__proto__], which gives [Object.prototype] itself. *)
Definition Object_prototype_methods : list string :=
  ["constructor"; "hasOwnProperty"; "isPrototypeOf"; "propertyIsEnumerable";
   "toLocaleString"; "toString"; "valueOf";
   "__defineGetter__"; "__defineSetter__";
   "__lookupGetter__"; "__lookupSetter__"]%string.

Definition Object_prototype (key : string) : value :=
  if existsb (String.eqb key) Object_prototype_methods then VFunction key
  else if String.eqb key "__proto__" then VObject
  else VUndefined.

(** An object literal whose properties are numbers. *)
Definition table : Type := list (string * num).

Fixpoint own (o : table) (key : string) : option num :=
  match o with
  | [] => None
  | (k, v) :: o' => if String.eqb k key then Some v else own o' key
  end.

(** [o[key]]: an own property, or else what the prototype has. *)
Definition get (o : table) (key : string) : value :=
  match own o key with
  | Some v => VNumber v
  | None => Object_prototype key
  end.

Definition value_truthy (v : value) : bool :=
  match v with
  | VUndefined => false
  | VNumber n => truthy n
  | VFunction _ | VObject => true
  end.

(** [v || d]. *)
Definition value_or (v : value) (d : num) : value :=
  if value_truthy v then v else VNumber d.

(** The number [*] makes of its operand; a function or a plain object
    converts to [NaN]. *)
Definition ToNumber (v : value) : num :=
  match v with
  | VNumber n => n
  | VUndefined | VFunction _ | VObject => NaN
  end.

Definition default {A : Type} (d : A) (o : option A) : A :=
  match o with Some v => v | None => d end.

Module ArtParams.
Record t : Type := mk {
  complexity : option string;
  timeSpent : option num;
  demand : option string
}.
End ArtParams.

Record ArtPrice : Type := mkArtPrice {
  base_alc : value;
  time_spent_hours : num;
  complexity_level : string;
  demand_level : string;
  final_price_alc : num;
  usd_estimate : string
}.

Definition complexityRates : table :=
  [("low", Fin 5); ("medium", Fin 10); ("high", Fin 20)]%string.

Definition demandMultipliers : table :=
  [("low", Fin 0.8); ("normal", Fin 1.0); ("high", Fin 1.5)]%string.

Definition calculateArtPrice (params : ArtParams.t) : ArtPrice :=
  let complexity := default "medium"%string (ArtParams.complexity params) in
  let timeSpent := default (Fin 1) (ArtParams.timeSpent params) in
  let demand := default "normal"%string (ArtParams.demand params) in
  let baseRate := value_or (get complexityRates complexity) (Fin 10) in
  let demandFactor := value_or (get demandMultipliers demand) (Fin 1.0) in
  let price := (ToNumber baseRate * timeSpent * ToNumber demandFactor)%js in
  {| base_alc := baseRate;
     time_spent_hours := timeSpent;
     complexity_level := complexity;
     demand_level := demand;
     final_price_alc := Math.round price;
     usd_estimate := "(multiply by current ALC rate)" |}.

Module TokenParams.
Record t : Type := mk {
  type : option string;
  utility : option string;
  scarcity : option num
}.
End TokenParams.

Record TokenValue : Type := mkTokenValue {
  token_type : string;
  utility_level : string;
  total_supply : num;
  scarcity_bonus : num;
  base_value_alc : num;
  market_condition : string
}.

Definition typeMultipliers : table :=
  [("standard", Fin 1.0); ("premium", Fin 2.0); ("limited", Fin 3.0)]%string.

Definition utilityRates : table :=
  [("low", Fin 5); ("medium", Fin 10); ("high", Fin 20)]%string.

Definition calculateTokenValue (params : TokenParams.t) : TokenValue :=
  let type := default "standard"%string (TokenParams.type params) in
  let utility := default "medium"%string (TokenParams.utility params) in
  let scarcity := default (Fin 1000) (TokenParams.scarcity params) in
  let baseValue := value_or (get utilityRates utility) (Fin 10) in
  let typeMultiplier := value_or (get typeMultipliers type) (Fin 1.0) in
  let scarcityBonus :=
    if (scarcity <? Fin 100)%js then Fin 2.0
    else if (scarcity <? Fin 500)%js then Fin 1.5 else Fin 1.0 in
  let tokenValue :=
    (ToNumber baseValue * ToNumber typeMultiplier * scarcityBonus)%js in
  {| token_type := type;
     utility_level := utility;
     total_supply := scarcity;
     scarcity_bonus := scarcityBonus;
     base_value_alc := Math.round tokenValue;
     market_condition := "fair_pricing_applied" |}.

End DynamicPricing.


(** ** calculator/fair-pricing.js, the composed entry point and the metrics *)

Module FairPricingReports.
Import FairPricing.

(** [fair_price] is [adjusted_price], a string, when the market check set
    one, and else [price], a number. *)
Inductive fair_price_t : Type :=
| Text (s : decimal)
| Number (n : num).

Record FairPrice : Type := mkFairPrice {
  input_price : num;
  fair_price : fair_price_t;
  validation : Validation;
  market_check : MarketCheck;
  manipulation_check : ManipulationCheck;
  never : string;
  guarantee : string
}.

(** [xs.slice(-n)]: the last [n] entries, or all of them. *)
Definition slice_last {A : Type} (n : nat) (xs : list A) : list A :=
  skipn (length xs - n) xs.

(** [applyFairPricing(price, context)]; [marketData] is
    [context.marketData], absent when [None]. *)
Definition applyFairPricing
           (this : t) (price : num) (context : Context.t)
           (marketData : option MarketData.t)
  : FairPrice * t :=
  let '(validation, this) := validatePrice this price context in
  let marketCheck :=
    ensureFairMarket (validated_price validation)
                     (match marketData with
                      | Some md => md
                      | None => MarketData.empty
                      end) in
  let recentPrices := slice_last 10 (priceHistory this) in
  let manipulation := detectManipulation recentPrices in
  ({| input_price := price;
      fair_price :=
        match marketCheck with
        | Aligned _ _ adjusted_price _ => Text adjusted_price
        | Within_range price _ _ => Number price
        end;
      validation := validation;
      market_check := marketCheck;
      manipulation_check := manipulation;
      never := "unfair_pricing";
      guarantee := "fair_pricing_always" |},
   this).

Record Metrics : Type := mkMetrics {
  metrics_fairness_score : decimal;  (* fairness_score *)
  price_floor : num;
  price_ceiling : num;
  max_change_rate : num;             (* the number before the "%" sign *)
  recent_average_price : decimal;
  prices_tracked : nat;
  status : string
}.

Definition getFairnessMetrics (this : t) : Metrics :=
  let recentPrices := slice_last 10 (priceHistory this) in
  let avgPrice :=
    if (0 <? length recentPrices)%nat
    then (fold_left (fun sum p => sum + p) recentPrices (Fin 0)
          / length_num recentPrices)%js
    else Fin 0 in
  {| metrics_fairness_score := toFixed 2 (fairnessScore this);
     price_floor := priceFloor this;
     price_ceiling := priceCeiling this;
     max_change_rate := (maxChangeRate this * Fin 100)%js;
     recent_average_price := toFixed 2 avgPrice;
     prices_tracked := length (priceHistory this);
     status :=
       if (fairnessScore this >? Fin 0.8)%js then "excellent"
       else if (fairnessScore this >? Fin 0.6)%js then "good"
       else "needs_improvement" |}.

End FairPricingReports.

(** ** calculator/alc-market.js, the other methods *)

Module ALCMarketOps.
Import ALCMarket.








End ALCMarketOps.

(** ** calculator/dynamic-pricing.js, the other methods *)

Module DynamicPricingOps.
Import DynamicPricing.

Record t : Type := mk {
  priceHistory : list num;
  demandMultiplier : num
}.

Definition constructor : t :=
  {| priceHistory := []; demandMultiplier := Fin 1.0 |}.

(** What [+] gives: the sum of two numbers, or, when an operand is a
    function or an object, the concatenation of two strings, whose text
    is not modelled. *)
Inductive added : Type :=
| Sum (n : num)
| Concatenation.

Definition of_value (v : value) : added :=
  match v with
  | VNumber n => Sum n
  | VUndefined => Sum NaN
  | VFunction _ | VObject => Concatenation
  end.

Definition plus (a : added) (b : value) : added :=
  match a, of_value b with
  | Sum x, Sum y => Sum (x + y)%js
  | _, _ => Concatenation
  end.

Module FeatureParams.
Record t : Type := mk {
  tier : option string;
  features : option (list string);
  support : option string
}.
End FeatureParams.

Record FeatureCost : Type := mkFeatureCost {
  tier_level : string;
  base_cost_alc : value;
  support_type : string;
  support_cost_alc : value;
  feature_count : nat;
  total_cost_alc : added;
  monthly_subscription : bool
}.

Definition tierPricing : table :=
  [("free", Fin 0); ("basic", Fin 10); ("premium", Fin 50);
   ("enterprise", Fin 200)]%string.

Definition supportCosts : table :=
  [("community", Fin 0); ("priority", Fin 15); ("dedicated", Fin 50)]%string.

Definition calculateFeatureCost (params : FeatureParams.t) : FeatureCost :=
  let tier := default "free"%string (FeatureParams.tier params) in
  let features := default [] (FeatureParams.features params) in
  let support := default "community"%string (FeatureParams.support params) in
  let baseCost := value_or (get tierPricing tier) (Fin 0) in
  let supportCost := value_or (get supportCosts support) (Fin 0) in
  let featureBonus := (FairPricing.length_num features * Fin 5)%js in
  let totalCost := plus (plus (of_value baseCost) supportCost) (VNumber featureBonus) in
  {| tier_level := tier;
     base_cost_alc := baseCost;
     support_type := support;
     support_cost_alc := supportCost;
     feature_count := length features;
     total_cost_alc := totalCost;
     monthly_subscription := negb (String.eqb tier "free") |}.

Record TransactionFee : Type := mkTransactionFee {
  transaction_amount_alc : num;
  fee_percent : decimal;
  calculated_fee_alc : decimal;
  actual_fee_alc : decimal;
  fee_model : string
}.

Definition calculateTransactionFee (transactionAmount : num) : TransactionFee :=
  let feePercent := Fin 0.01 in
  let minimumFee := Fin 0.1 in
  let calculatedFee := (transactionAmount * feePercent)%js in
  let actualFee := Math.max calculatedFee minimumFee in
  {| transaction_amount_alc := transactionAmount;
     fee_percent := toFixed 1 (feePercent * Fin 100)%js;
     calculated_fee_alc := toFixed 2 calculatedFee;
     actual_fee_alc := toFixed 2 actualFee;
     fee_model := "minimal_hydrogen_bond_cost" |}.

Module ActivityData.
Record t : Type := mk {
  supply : option num;
  demand : option num;
  recentActivity : option num
}.
End ActivityData.

Record RealTime : Type := mkRealTime {
  supply_level : num;
  demand_level : num;
  recent_activity : num;
  demand_multiplier : decimal;
  market_state : string;
  mongoose_learning_active : bool
}.

Definition adjustRealTime (this : t) (activityData : ActivityData.t)
  : RealTime * t :=
  let supply := default (Fin 1000) (ActivityData.supply activityData) in
  let demand := default (Fin 1000) (ActivityData.demand activityData) in
  let recentActivity :=
    default (Fin 100) (ActivityData.recentActivity activityData) in
  let supplyDemandRatio := (demand / supply)%js in
  let activityMultiplier := (Fin 1 + recentActivity / Fin 1000)%js in
  let this :=
    {| priceHistory := priceHistory this;
       demandMultiplier := (supplyDemandRatio * activityMultiplier)%js |} in
  ({| supply_level := supply;
      demand_level := demand;
      recent_activity := recentActivity;
      demand_multiplier := toFixed 2 (demandMultiplier this);
      market_state :=
        if (supplyDemandRatio >? Fin 1.2)%js then "high_demand"
        else if (supplyDemandRatio <? Fin 0.8)%js then "low_demand"
        else "balanced";
      mongoose_learning_active := true |},
   this).

(** The two records [validateFairPricing] returns:
    [{original_price, market_average, adjusted_price,
      fair_pricing_enforced: true, reason: 'prevented_unfair_pricing'}]
    and [{price, market_average, deviation_percent,
      fair_pricing_verified: true}]. *)
Inductive FairCheck : Type :=
| Enforced (original_price market_average adjusted_price : num)
| Verified (price market_average : num) (deviation_percent : decimal).

Definition validateFairPricing (price marketAverage : num) : FairCheck :=
  let deviationThreshold := Fin 0.25 in
  let deviation := (Math.abs (price - marketAverage) / marketAverage)%js in
  if (deviation >? deviationThreshold)%js then
    Enforced price marketAverage
             (marketAverage
              * (Fin 1 + deviationThreshold
                         * (if (price >? marketAverage)%js
                            then Fin 1 else Fin (-1))))%js
  else
    Verified price marketAverage (toFixed 1 (deviation * Fin 100)%js).

End DynamicPricingOps.

(** ** The market adjustment on binary64

    The numbers above are exact.  Where a property of the code turns on
    the rounding of binary64 itself, the arithmetic of the method is
    written a second time on the primitive floating-point numbers, which
    are the numbers JavaScript computes with. *)

From Stdlib Require PrimFloat.

Module Binary64.
Import PrimFloat.


(** The label: [supplyDemandRatio > 1 ? 'high_demand'
    : supplyDemandRatio < 1 ? 'abundant_supply' : 'stable']. *)
Definition market_condition (supplyDemandRatio : float) : string :=
  if (1 <? supplyDemandRatio)%float then "high_demand"
  else if (supplyDemandRatio <? 1)%float then "abundant_supply"
  else "stable".


End Binary64.

(** * Vocabulary of the properties *)

Module FairPricingSpec.
Import FairPricing.

(** A finite number between the floor and the ceiling. *)
Definition in_bounds (n : num) : Prop :=
  match n with
  | Fin q => 0.01 <= q <= 10000
  | _ => False
  end.

(** The instance still has the constants its constructor gave it. *)
Definition standard (this : t) : Prop :=
  priceFloor this = Fin 0.01
  /\ priceCeiling this = Fin 10000
  /\ maxChangeRate this = Fin 0.25.

(** The relative step from one accepted price to the next is at most
    [maxChangeRate]. *)
Definition step_ok (accepted1 accepted2 : num) : Prop :=
  match accepted1, accepted2 with
  | Fin a1, Fin a2 => 0 < a1 /\ Qabs (a2 - a1) / a1 <= 0.25
  | _, _ => False
  end.

(** A sequence of [validatePrice] calls on one instance. *)
Definition validate_all (this : t) (calls : list (num * Context.t)) : t :=
  fold_left (fun this c => snd (validatePrice this (fst c) (snd c))) calls this.

Definition not_NaN (n : num) : Prop := is_NaN n = false.

(** The price as the bounds check (step 1) leaves it, and as the
    rapid-change check (step 2) then leaves it: the accepted price. *)
Definition bounded_price (this : t) (price : num) : num :=
  let price := if (price <? priceFloor this)%js then priceFloor this else price in
  if (price >? priceCeiling this)%js then priceCeiling this else price.

Definition limited_price (this : t) (lastPrice price : num) : num :=
  if (Math.abs (price - lastPrice) / lastPrice >? maxChangeRate this)%js
  then if (price >? lastPrice)%js
       then (lastPrice + lastPrice * maxChangeRate this)%js
       else (lastPrice - lastPrice * maxChangeRate this)%js
  else price.

Definition accepted_price (this : t) (price : num) : num :=
  let price := bounded_price this price in
  if (0 <? length (priceHistory this))%nat
  then limited_price this (last_entry (priceHistory this)) price
  else price.

(** [priceHistory] after [push(price)] and the [shift()] that keeps it
    at 100 entries. *)
Definition pushed (h : list num) (price : num) : list num :=
  if (100 <? length (h ++ [price]))%nat then tl (h ++ [price]) else h ++ [price].

(** What the filter of [ensureFairMarket] drops. *)
Definition not_positive (n : num) : Prop := (n >? Fin 0)%js = false.

Definition Qsum (xs : list Q) : Q := fold_left Qplus xs 0.
Definition mean (xs : list Q) : Q := Qsum xs / inject_Z (Z.of_nat (length xs)).

(** Each entry of [run] is strictly above the one before it, starting
    above [prev]: [length run] consecutive strict increases. *)
Fixpoint strictly_increasing (prev : num) (run : list num) : Prop :=
  match run with
  | [] => True
  | x :: run' => (x >? prev)%js = true /\ strictly_increasing x run'
  end.

End FairPricingSpec.

Module CapacitorSpec.
Import CapacitorModel.

(** A finite number in [[0, 1]]. *)
Definition unit_interval (n : num) : Prop :=
  match n with
  | Fin q => 0 <= q <= 1
  | _ => False
  end.

(** A call whose argument is normalized, as the comments in the source
    ask ([activityLevel] and [purchaseSize] in 0-1). *)
Definition valid_call (c : call) : Prop :=
  match c with
  | AccumulateCharge activityLevel => unit_interval activityLevel
  | DischargeOnPurchase purchaseSize => unit_interval purchaseSize
  | AutoBalance => True
  end.

(** The instance still has the rates its constructor gave it. *)
Definition standard_rates (this : t) : Prop :=
  maxCharge this = Fin 1.0
  /\ dischargeRate this = Fin 0.1
  /\ chargeRate this = Fin 0.05.

End CapacitorSpec.

Module ExtraSpec.



(** A sequence of [adjustMarketValue] calls on one instance. *)
Definition adjust_all (this : ALCMarket.t) (ratios : list num) : ALCMarket.t :=
  fold_left (fun this r => snd (ALCMarket.adjustMarketValue this r)) ratios this.


(** 1 for [true], 0 for [false]. *)
Definition count_if (b : bool) : nat := if b then 1%nat else 0%nat.

End ExtraSpec.

(** What binary64 rounding can change in a computed value is stated as a
    tolerance; magnitudes are kept between [tiny] and [huge], away from
    underflow and overflow.  [toFixed] writes a number in decimal
    notation as long as it is below [1e21]: what is printed is kept at
    most [printable] in size. *)
Module Rounding.

Definition printable : Q := inject_Z (10 ^ 20).

End Rounding.

(** * Properties *)

(** ** Comparisons and rounding *)

Section Numbers.

Lemma Qltb_true (a b : Q) : Qltb a b = true <-> a < b.
Proof.
  unfold Qltb. rewrite negb_true_iff. split; intros H.
  - apply Qnot_le_lt. intros Hle. apply Qle_bool_iff in Hle. congruence.
  - destruct (Qle_bool b a) eqn:E; [|reflexivity].
    apply Qle_bool_iff in E. exfalso. apply (Qlt_not_le _ _ H E).
Qed.

Lemma Qltb_false (a b : Q) : Qltb a b = false <-> b <= a.
Proof.
  unfold Qltb. rewrite negb_false_iff. apply Qle_bool_iff.
Qed.

Lemma Qeq_bool_false (a b : Q) : Qeq_bool a b = false <-> ~ a == b.
Proof.
  split; intros H.
  - intros E. apply Qeq_bool_iff in E. congruence.
  - destruct (Qeq_bool a b) eqn:E; [|reflexivity].
    apply Qeq_bool_iff in E. contradiction.
Qed.

(** Division by a positive number, against a bound. *)
Lemma Qdiv_gt_bound (x l c : Q) : 0 < l -> (c < x / l <-> c * l < x).
Proof.
  intros Hl. split; intros H.
  - apply Qnot_le_lt. intros Hle. apply (Qlt_not_le _ _ H).
    apply Qle_shift_div_r; assumption.
  - apply Qlt_shift_div_l; assumption.
Qed.

Lemma Qdiv_le_bound (x l c : Q) : 0 < l -> (x / l <= c <-> x <= c * l).
Proof.
  intros Hl. split; intros H.
  - apply Qnot_lt_le. intros Hlt. apply (Qle_not_lt _ _ H).
    apply Qlt_shift_div_l; assumption.
  - apply Qle_shift_div_r; assumption.
Qed.

Lemma pow10_pos (digits : nat) : 0 < pow10 digits.
Proof.
  unfold pow10. change 0 with (inject_Z 0). rewrite <- Zlt_Qlt.
  apply Z.pow_pos_nonneg; lia.
Qed.

(** The nearest integer to a value between two integers lies between
    them. *)
Lemma nearest_between (lo hi : Z) (x : Q) :
  inject_Z lo <= x <= inject_Z hi ->
  (lo <= Qfloor (x + (1 # 2)) <= hi)%Z.
Proof.
  intros [Hlo Hhi]. split.
  - rewrite <- (Qfloor_Z lo). apply Qfloor_resp_le. lra.
  - apply Z.lt_succ_r. rewrite Zlt_Qlt.
    unfold Z.succ. rewrite inject_Z_plus.
    pose proof (Qfloor_le (x + (1 # 2))) as Hf.
    change (inject_Z 1) with 1. lra.
Qed.

(** Rounding to [digits] fraction digits stays between two bounds that
    are themselves multiples of [10^-digits]. *)
Lemma round_half_up_between (digits : nat) (lo hi : Z) (q : Q) :
  inject_Z lo <= q * pow10 digits <= inject_Z hi ->
  inject_Z lo <= round_half_up digits q * pow10 digits <= inject_Z hi.
Proof.
  intros H. apply nearest_between in H. unfold round_half_up.
  pose proof (pow10_pos digits) as Hp.
  assert (E : inject_Z (Qfloor (q * pow10 digits + (1 # 2))) / pow10 digits
              * pow10 digits
              == inject_Z (Qfloor (q * pow10 digits + (1 # 2)))).
  { field. intros E. rewrite E in Hp. apply (Qlt_irrefl 0 Hp). }
  rewrite E. rewrite <- !Zle_Qle. exact H.
Qed.

End Numbers.

(** Case analysis on every test of a goal. *)
Ltac split_ifs :=
  repeat match goal with
         | |- context [if ?c then _ else _] => destruct c
         end.

Ltac split_ifs_eqn :=
  repeat match goal with
         | |- context [if ?c then _ else _] => destruct c eqn:?
         end.

(** ** How far rounding moves a value *)

Section RoundingDistance.




End RoundingDistance.

(** ** FairPricing: bounds and step of the accepted price *)

Module FairPricingFacts.
Import FairPricing FairPricingSpec.



Lemma last_entry_Forall (P : num -> Prop) (h : list num) :
  Forall P h -> h <> [] -> P (last_entry h).
Proof.
  intros HF Hne. unfold last_entry.
  apply Forall_nth; [exact HF|].
  destruct h; [congruence|simpl; lia].
Qed.

Lemma Forall_tl (P : num -> Prop) (h : list num) :
  Forall P h -> Forall P (tl h).
Proof. intros HF. destruct h; [exact HF|]. inversion HF; assumption. Qed.

(** On a non-negative value below [1e21], [toFixed] rounds. *)
Lemma toFixed_nonneg (digits : nat) (q : Q) :
  0 <= q -> q < inject_Z (10 ^ 21) ->
  toFixed digits (Fin q) = Decimal digits (Fin (round_half_up digits q)).
Proof.
  intros H0 H21. unfold toFixed.
  assert (E1 : Qle_bool (inject_Z (10 ^ 21)) (Qabs q) = false).
  { destruct (Qle_bool _ _) eqn:E; [|reflexivity].
    apply Qle_bool_iff in E. rewrite Qabs_pos in E by exact H0.
    exfalso. apply (Qlt_not_le _ _ H21 E). }
  assert (E2 : Qltb q 0 = false) by (apply Qltb_false; exact H0).
  rewrite E1, E2. reflexivity.
Qed.

Lemma toFixed2_in_bounds (a : num) :
  in_bounds a -> in_bounds (parseFloat (toFixed 2 a)).
Proof.
  destruct a as [q| | |]; cbn [in_bounds]; try contradiction.
  intros [Hlo Hhi].
  assert (H21 : q < inject_Z (10 ^ 21)).
  { apply Qle_lt_trans with (1 := Hhi). reflexivity. }
  rewrite toFixed_nonneg by (try exact H21; lra).
  cbn [parseFloat in_bounds].
  pose proof (round_half_up_between 2 1 1000000 q) as Hr.
  change (pow10 2) with 100 in Hr.
  change (inject_Z 1) with 1 in Hr.
  change (inject_Z 1000000) with 1000000 in Hr.
  lra.
Qed.

Lemma validatePrice_history (this : t) (p : num) (context : Context.t) :
  priceHistory (snd (validatePrice this p context))
  = pushed (priceHistory this) (accepted_price this p).
Proof.
  unfold validatePrice, accepted_price, bounded_price, limited_price, pushed.
  split_ifs; reflexivity.
Qed.

Lemma validatePrice_validated_price (this : t) (p : num) (context : Context.t) :
  validated_price (fst (validatePrice this p context))
  = parseFloat (toFixed 2 (accepted_price this p)).
Proof.
  unfold validatePrice, accepted_price, bounded_price, limited_price.
  split_ifs; reflexivity.
Qed.

Lemma validatePrice_standard (this : t) (p : num) (context : Context.t) :
  standard this -> standard (snd (validatePrice this p context)).
Proof.
  unfold standard, validatePrice. split_ifs; cbn; exact (fun H => H).
Qed.



Lemma Forall_pushed (P : num -> Prop) (h : list num) (x : num) :
  Forall P h -> P x -> Forall P (pushed h x).
Proof.
  intros HF Hx. unfold pushed.
  assert (Forall P (h ++ [x])) by (apply Forall_app; split; [exact HF|auto]).
  destruct (100 <? length (h ++ [x]))%nat; [apply Forall_tl|]; assumption.
Qed.

Lemma bounds_clamp (this : t) (p : num) :
  standard this -> not_NaN p -> in_bounds (bounded_price this p).
Proof.
  intros (Hf & Hc & _). unfold bounded_price. rewrite Hf, Hc.
  destruct p as [q| | |]; unfold not_NaN, gtb; cbn [is_NaN ltb in_bounds];
    intros Hn; try discriminate; try (split; lra).
  destruct (Qltb q 0.01) eqn:E1; cbn [ltb in_bounds].
  - destruct (Qltb 10000 0.01) eqn:E2; [discriminate|].
    cbn [in_bounds]. split; lra.
  - apply Qltb_false in E1.
    destruct (Qltb 10000 q) eqn:E2; cbn [in_bounds].
    + split; lra.
    + apply Qltb_false in E2. split; assumption.
Qed.

Lemma change_clamp (this : t) (lastPrice price : num) :
  standard this -> in_bounds lastPrice -> in_bounds price ->
  in_bounds (limited_price this lastPrice price)
  /\ step_ok lastPrice (limited_price this lastPrice price).
Proof.
  intros (_ & _ & Hm).
  destruct lastPrice as [l| | |]; cbn [in_bounds]; try contradiction.
  destruct price as [p| | |]; cbn [in_bounds]; try contradiction.
  intros Hl Hp. unfold limited_price. rewrite Hm.
  assert (Hlpos : 0 < l) by lra.
  assert (Hl0 : Qeq_bool l 0 = false) by (apply Qeq_bool_false; lra).
  unfold gtb. cbn [Math.abs sub add neg div mul ltb]. rewrite Hl0.
  cbn [ltb]. change (p + - l) with (p - l).
  destruct (Qltb 0.25 (Qabs (p - l) / l)) eqn:E.
  - apply Qltb_true in E. apply Qdiv_gt_bound in E; [|exact Hlpos].
    destruct (Qltb l p) eqn:E2; cbn [in_bounds step_ok].
    + apply Qltb_true in E2. rewrite Qabs_pos in E by lra.
      split; [split; lra|]. split; [exact Hlpos|].
      apply Qdiv_le_bound; [exact Hlpos|].
      rewrite Qabs_pos by lra. lra.
    + apply Qltb_false in E2. rewrite Qabs_neg in E by lra.
      split; [split; lra|]. split; [exact Hlpos|].
      apply Qdiv_le_bound; [exact Hlpos|].
      rewrite Qabs_neg by lra. lra.
  - apply Qltb_false in E. cbn [in_bounds step_ok]. split; [exact Hp|].
    split; [exact Hlpos|]. exact E.
Qed.

Lemma accepted_price_in_bounds (this : t) (p : num) :
  standard this -> Forall in_bounds (priceHistory this) -> not_NaN p ->
  in_bounds (accepted_price this p).
Proof.
  intros Hs HF Hn. unfold accepted_price.
  pose proof (bounds_clamp this p Hs Hn) as Hb.
  destruct (0 <? length (priceHistory this))%nat eqn:E; [|exact Hb].
  apply change_clamp; try assumption.
  apply last_entry_Forall; [exact HF|].
  apply Nat.ltb_lt in E. intros E0. rewrite E0 in E. simpl in E. lia.
Qed.


(** Every state reached from a fresh instance by calls whose prices are
    numbers keeps the constants and a history within the bounds. *)
Lemma validate_all_invariant (calls : list (num * Context.t)) (this : t) :
  standard this -> Forall in_bounds (priceHistory this) ->
  Forall (fun c => not_NaN (fst c)) calls ->
  standard (validate_all this calls)
  /\ Forall in_bounds (priceHistory (validate_all this calls)).
Proof.
  revert this. induction calls as [|[p context] calls IH]; intros this Hs HF Hc.
  - split; assumption.
  - inversion Hc as [|c cs Hp Hcs]; subst. cbn [fst] in Hp.
    cbn [validate_all fold_left fst snd]. apply IH.
    + apply validatePrice_standard, Hs.
    + rewrite validatePrice_history. apply Forall_pushed; [exact HF|].
      apply accepted_price_in_bounds; assumption.
    + exact Hcs.
Qed.

Lemma constructor_standard : standard constructor.
Proof. repeat split. Qed.

Lemma ltb_asym (a b : num) : (a <? b)%js = true -> (b <? a)%js = false.
Proof.
  destruct a as [x| | |], b as [y| | |]; cbn [ltb]; try congruence.
  intros H. apply Qltb_true in H. apply Qltb_false. lra.
Qed.







(** C9.  One call records at most two issues: [price_too_low] and
    [price_too_high] never both, because [priceFloor < priceCeiling], and
    at most [price_change_too_rapid] besides; so the [fairness_score] it
    returns is at least 0.6. *)
Theorem validatePrice_at_most_two_issues
        (this : t) (price : num) (context : Context.t) :
  (priceFloor this <? priceCeiling this)%js = true ->
  let r := fst (validatePrice this price context) in
  (length (issues r) <= 2)%nat
  /\ ~ (In "price_too_low"%string (issues r)
        /\ In "price_too_high"%string (issues r))
  /\ exists s, fairness_score r = Decimal 2 (Fin s) /\ 0.6 <= s.
Proof.
  intros Hlt r. subst r. apply ltb_asym in Hlt.
  unfold validatePrice, calculateFairnessScore, gtb.
  split_ifs_eqn; try congruence;
    cbn [fst issues fairness_score app length];
    (split; [lia|]);
    (split;
     [ intros [Hlow Hhigh]; cbn [In] in Hlow, Hhigh;
       repeat match goal with
              | H : _ \/ _ |- _ => destruct H
              | H : False |- _ => destruct H
              | H : _ = _ :> string |- _ => discriminate H
              end
     | ]);
    cbn [fairnessScore set_fairnessScore];
    eexists; (split; [vm_compute; reflexivity|]);
    apply Qle_bool_iff; reflexivity.
Qed.

Lemma validatePrice_at_most_two_issues_witness :
  let r := fst (validatePrice (validate_all constructor [(Fin 5, Context.empty)])
                              (Fin 20000) Context.empty) in
  (length (issues r) <= 2)%nat
  /\ ~ (In "price_too_low"%string (issues r)
        /\ In "price_too_high"%string (issues r))
  /\ exists s, fairness_score r = Decimal 2 (Fin s) /\ 0.6 <= s.
Proof.
  apply (validatePrice_at_most_two_issues
           (validate_all constructor [(Fin 5, Context.empty)])
           (Fin 20000) Context.empty).
  reflexivity.
Defined.

End FairPricingFacts.

(** ** FairPricing: market consensus *)

Module FairMarketFacts.
Import FairPricing FairPricingSpec.


Lemma sum_Fin (xs : list Q) (acc : Q) :
  fold_left (fun sum p => sum + p)%js (map Fin xs) (Fin acc)
  = Fin (fold_left Qplus xs acc).
Proof.
  revert acc. induction xs as [|x xs IH]; intros acc; [reflexivity|].
  cbn [map fold_left add]. apply IH.
Qed.



Lemma length_pos_Q {A : Type} (xs : list A) :
  xs <> [] -> 0 < inject_Z (Z.of_nat (length xs)).
Proof.
  intros Hne. change 0 with (inject_Z 0). rewrite <- Zlt_Qlt.
  destruct xs; [congruence|]. cbn [length]. lia.
Qed.


(** The two locals of [ensureFairMarket] when some candidate is positive. *)
Lemma marketAverage_mean (xs : list Q) :
  xs <> [] -> marketAverage (map Fin xs) = Fin (mean xs).
Proof.
  intros Hne. unfold marketAverage, length_num. rewrite sum_Fin, length_map.
  cbn [div]. pose proof (length_pos_Q xs Hne) as Hlen.
  assert (E : Qeq_bool (inject_Z (Z.of_nat (length xs))) 0 = false)
    by (apply Qeq_bool_false; lra).
  rewrite E. reflexivity.
Qed.

Lemma deviation_Fin (q mu : Q) :
  0 < mu -> deviation (Fin q) (Fin mu) = Fin (Qabs (q - mu) / mu).
Proof.
  intros Hmu. unfold deviation. cbn [sub add neg Math.abs div].
  assert (E : Qeq_bool mu 0 = false) by (apply Qeq_bool_false; lra).
  rewrite E. reflexivity.
Qed.




(** C10.  When [averagePrice], [medianPrice] and every competitor price
    fail the filter [p > 0], no candidate is left: the sum 0 is divided
    by the length 0, the market average and the deviation are [NaN], the
    comparison [deviation > 0.3] is false, and the call returns the
    proposed price unchanged, reporting [NaN] twice. *)
Theorem ensureFairMarket_no_positive_price
        (proposedPrice averagePrice medianPrice : num)
        (competitorPrices : list num) :
  not_positive averagePrice ->
  not_positive medianPrice ->
  Forall not_positive competitorPrices ->
  let marketData :=
    MarketData.mk (Some averagePrice) (Some medianPrice)
                  (Some competitorPrices) in
  allPrices proposedPrice marketData = []
  /\ marketAverage (allPrices proposedPrice marketData) = NaN
  /\ deviation proposedPrice
               (marketAverage (allPrices proposedPrice marketData)) = NaN
  /\ (NaN >? Fin 0.3)%js = false
  /\ ensureFairMarket proposedPrice marketData
     = Within_range proposedPrice (Decimal 2 NaN) (Decimal 1 NaN).
Proof.
  intros Ha Hm Hc marketData.
  assert (Hall : allPrices proposedPrice marketData = []).
  { unfold allPrices, marketData. cbn [MarketData.averagePrice
      MarketData.medianPrice MarketData.competitorPrices default app filter].
    unfold not_positive in Ha, Hm. rewrite Ha, Hm.
    induction Hc as [|c cs Hc0 _ IH]; [reflexivity|].
    cbn [filter]. unfold not_positive in Hc0. rewrite Hc0. exact IH. }
  assert (Hdev : deviation proposedPrice NaN = NaN)
    by (destruct proposedPrice; reflexivity).
  unfold ensureFairMarket. rewrite Hall.
  change (marketAverage []) with NaN. rewrite Hdev.
  repeat split; reflexivity.
Qed.

Lemma ensureFairMarket_no_positive_price_witness :
  ensureFairMarket (Fin 10)
    (MarketData.mk (Some (Fin 0)) (Some (Fin (-5))) (Some [Fin 0; Fin (-2)]))
  = Within_range (Fin 10) (Decimal 2 NaN) (Decimal 1 NaN).
Proof.
  apply (ensureFairMarket_no_positive_price
           (Fin 10) (Fin 0) (Fin (-5)) [Fin 0; Fin (-2)]).
  - reflexivity.
  - reflexivity.
  - repeat constructor.
Defined.

End FairMarketFacts.

(** ** FairPricing: the monotonic-run check *)

Module ManipulationFacts.
Import FairPricing FairPricingSpec.

(** Inside a run of increases the loop reaches five of them. *)
Lemma inflation_loop_run (run post : list num) (prev : num) (count : nat) :
  strictly_increasing prev run ->
  (count < 5)%nat -> (5 <= count + length run)%nat ->
  inflation_loop prev (run ++ post) count = true.
Proof.
  revert prev count.
  induction run as [|x run IH]; intros prev count Hinc Hlt Hlen.
  - cbn [length] in Hlen. lia.
  - destruct Hinc as [Hx Hrun]. cbn [app inflation_loop]. rewrite Hx.
    destruct (5 <=? S count)%nat eqn:E; [reflexivity|].
    apply Nat.leb_gt in E. apply IH; [exact Hrun|exact E|].
    cbn [length] in Hlen. lia.
Qed.

(** Before the run the loop either has left already or arrives at the
    run with a count below five. *)
Lemma inflation_loop_prefix
      (pre : list num) (first : num) (rest : list num) (prev : num) (count : nat) :
  (count < 5)%nat ->
  inflation_loop prev (pre ++ first :: rest) count = true
  \/ exists count',
      (count' < 5)%nat
      /\ inflation_loop prev (pre ++ first :: rest) count
         = inflation_loop first rest count'.
Proof.
  revert prev count.
  induction pre as [|x pre IH]; intros prev count Hlt; cbn [app inflation_loop].
  - set (count1 := if (first >? prev)%js then S count else O).
    destruct (5 <=? count1)%nat eqn:E; [left; reflexivity|].
    apply Nat.leb_gt in E. right. exists count1. split; [exact E|reflexivity].
  - set (count1 := if (x >? prev)%js then S count else O).
    destruct (5 <=? count1)%nat eqn:E; [left; reflexivity|].
    apply Nat.leb_gt in E. apply IH, E.
Qed.

Lemma inflation_check_run (pre : list num) (first : num) (run post : list num) :
  (5 <= length run)%nat -> strictly_increasing first run ->
  inflation_check (pre ++ first :: run ++ post) = true.
Proof.
  intros Hlen Hinc. destruct pre as [|p pre].
  - cbn [app inflation_check]. apply inflation_loop_run; [exact Hinc|lia|lia].
  - cbn [app inflation_check].
    destruct (inflation_loop_prefix pre first (run ++ post) p 0)
      as [H|(count' & Hc & H)]; [lia|exact H|].
    rewrite H. apply inflation_loop_run; [exact Hinc|exact Hc|lia].
Qed.

(** C6.  A price sequence that contains a run of five or more consecutive
    strict increases (six or more prices, each above the one before) is
    reported: the monotonic-run check fires, [suspicious_patterns] is at
    least 1 and [manipulation_detected] is true.  So it is for
    [detectManipulation([1,2,3,4,5,6])]. *)
Theorem detectManipulation_monotonic_run :
  (forall (pre : list num) (first : num) (run post : list num),
      (5 <= length run)%nat ->
      strictly_increasing first run ->
      let r := detectManipulation (pre ++ first :: run ++ post) in
      inflation_check (pre ++ first :: run ++ post) = true
      /\ manipulation_detected r = true
      /\ exists k, suspicious_patterns r = Some k /\ (1 <= k)%nat)
  /\ (let r := detectManipulation [Fin 1; Fin 2; Fin 3; Fin 4; Fin 5; Fin 6] in
      manipulation_detected r = true
      /\ exists k, suspicious_patterns r = Some k /\ (1 <= k)%nat).
Proof.
  split.
  - intros pre first run post Hlen Hinc r.
    pose proof (inflation_check_run pre first run post Hlen Hinc) as Hcheck.
    split; [exact Hcheck|]. subst r. unfold detectManipulation.
    assert (Hsize : (length (pre ++ first :: run ++ post) <? 5)%nat = false).
    { apply Nat.ltb_ge. rewrite length_app. cbn [length].
      rewrite length_app. lia. }
    rewrite Hsize, Hcheck.
    destruct (_ >? Fin 0.5)%js;
      cbn [manipulation_detected suspicious_patterns];
      (split; [reflexivity|eexists; split; [reflexivity|lia]]).
  - cbv zeta. split; [reflexivity|].
    eexists. split; [vm_compute; reflexivity|]. lia.
Qed.

Lemma detectManipulation_monotonic_run_witness :
  let r :=
    detectManipulation
      ([Fin 9; Fin 3] ++ Fin 1 :: [Fin 2; Fin 3; Fin 4; Fin 5; Fin 6] ++ [Fin 2])
  in
  manipulation_detected r = true
  /\ exists k, suspicious_patterns r = Some k /\ (1 <= k)%nat.
Proof.
  apply (proj1 detectManipulation_monotonic_run
               [Fin 9; Fin 3] (Fin 1) [Fin 2; Fin 3; Fin 4; Fin 5; Fin 6]
               [Fin 2]).
  - cbn [length]. lia.
  - cbn [strictly_increasing]. repeat split; reflexivity.
Defined.

End ManipulationFacts.

(** ** CapacitorModel *)

Module CapacitorFacts.
Import CapacitorModel CapacitorSpec.

Lemma accumulateCharge_charge (this : t) (a : num) :
  standard_rates this -> unit_interval (charge this) -> unit_interval a ->
  unit_interval (charge (snd (accumulateCharge this a))).
Proof.
  intros (Hmax & _ & Hrate).
  destruct this as [c mx bt dr cr]. cbn in Hmax, Hrate. subst mx cr.
  destruct c as [c| | |], a as [a| | |]; cbn [unit_interval charge];
    try contradiction.
  intros Hc Ha.
  unfold accumulateCharge, Math.min.
  cbn [snd charge set_charge chargeRate maxCharge mul add is_NaN orb ltb].
  destruct (Qltb 1.0 (c + a * 0.05)) eqn:E; cbn [unit_interval].
  - split; lra.
  - apply Qltb_false in E. split; nra.
Qed.

Lemma dischargeOnPurchase_charge (this : t) (p : num) :
  standard_rates this -> unit_interval (charge this) -> unit_interval p ->
  unit_interval (charge (snd (dischargeOnPurchase this p))).
Proof.
  intros (_ & Hrate & _).
  destruct this as [c mx bt dr cr]. cbn in Hrate. subst dr.
  destruct c as [c| | |], p as [p| | |]; cbn [unit_interval charge];
    try contradiction.
  intros Hc Hp.
  unfold dischargeOnPurchase, Math.max.
  cbn [snd charge set_charge dischargeRate mul sub add neg is_NaN orb ltb].
  destruct (Qltb (c + - (p * 0.1)) 0) eqn:E; cbn [unit_interval].
  - split; lra.
  - apply Qltb_false in E. split; nra.
Qed.

Lemma autoBalance_charge (this : t) :
  unit_interval (charge this) ->
  unit_interval (charge (snd (autoBalance this))).
Proof.
  destruct this as [c mx bt dr cr].
  destruct c as [c| | |]; cbn [unit_interval charge]; try contradiction.
  intros Hc. unfold autoBalance, Math.min, gtb.
  cbn [snd charge set_charge sub add neg is_NaN orb ltb].
  repeat match goal with
         | |- context [if Qltb ?a ?b then _ else _] =>
             let E := fresh "E" in
             destruct (Qltb a b) eqn:E;
             [apply Qltb_true in E|apply Qltb_false in E];
             cbn [snd charge set_charge add neg]
         end;
    cbn [unit_interval]; split; lra.
Qed.

Lemma perform_keeps_rates (this : t) (c : call) :
  standard_rates this -> standard_rates (perform this c).
Proof.
  destruct c; unfold perform, accumulateCharge, dischargeOnPurchase,
    autoBalance, standard_rates; cbn [snd]; split_ifs; exact (fun H => H).
Qed.

Lemma perform_charge (this : t) (c : call) :
  standard_rates this -> unit_interval (charge this) -> valid_call c ->
  unit_interval (charge (perform this c)).
Proof.
  intros Hs Hc Hv. destruct c; cbn [perform valid_call] in *.
  - apply accumulateCharge_charge; assumption.
  - apply dischargeOnPurchase_charge; assumption.
  - apply autoBalance_charge; assumption.
Qed.

(** C3.  From the initial charge 0.5, after any sequence of
    [accumulateCharge(a)] with [a] in [[0,1]], [dischargeOnPurchase(p)]
    with [p] in [[0,1]] and [autoBalance()] calls, the charge is between 0
    and [maxCharge] = 1. *)
Theorem charge_stays_in_unit_interval
        (config : option Config.t) (calls : list call) :
  Forall valid_call calls ->
  let this := perform_all (constructor config) calls in
  exists c,
    charge this = Fin c /\ maxCharge this = Fin 1.0 /\ 0 <= c <= 1.
Proof.
  intros Hcalls this.
  assert (H : standard_rates this /\ unit_interval (charge this)).
  { subst this. unfold perform_all.
    assert (H0 : standard_rates (constructor config)
                 /\ unit_interval (charge (constructor config)))
      by (split; [repeat split|cbn; split; lra]).
    revert H0. generalize (constructor config).
    induction Hcalls as [|c calls Hc _ IH]; intros this [Hs Hu];
      [split; assumption|].
    cbn [fold_left]. apply IH. split.
    - apply perform_keeps_rates, Hs.
    - apply perform_charge; assumption. }
  destruct H as [(Hmax & _) Hu].
  destruct (charge this) as [c| | |]; cbn [unit_interval] in Hu;
    try contradiction.
  exists c. repeat split; try apply Hu. exact Hmax.
Qed.

Lemma charge_stays_in_unit_interval_witness :
  let this :=
    perform_all (constructor None)
                [AccumulateCharge (Fin 1); DischargeOnPurchase (Fin 0.5);
                 AutoBalance; AccumulateCharge (Fin 0.3)] in
  exists c,
    charge this = Fin c /\ maxCharge this = Fin 1.0 /\ 0 <= c <= 1.
Proof.
  apply (charge_stays_in_unit_interval
           None
           [AccumulateCharge (Fin 1); DischargeOnPurchase (Fin 0.5);
            AutoBalance; AccumulateCharge (Fin 0.3)]).
  repeat constructor; cbn; lra.
Defined.




End CapacitorFacts.

(** ** ALCMarket *)

Module MarketFacts.
Import ALCMarket.




End MarketFacts.

(** ** DynamicPricing *)

Module DynamicFacts.
Import DynamicPricing.

(** A key that the table does not own and [Object.prototype] does not
    have reads as [undefined], and [||] supplies the default. *)
Lemma get_fallback (o : table) (key : string) (d : num) :
  own o key = None -> Object_prototype key = VUndefined ->
  value_or (get o key) d = VNumber d.
Proof. intros Ho Hp. unfold get. rewrite Ho, Hp. reflexivity. Qed.

(** For such keys the formulas take the default rate 10 and the default
    factor 1.0, as they do for the categories [medium], [normal] and
    [standard]. *)
Lemma calculateArtPrice_fallback
      (complexity demand : string) (timeSpent : option num) :
  own complexityRates complexity = None ->
  Object_prototype complexity = VUndefined ->
  own demandMultipliers demand = None ->
  Object_prototype demand = VUndefined ->
  let r := calculateArtPrice
             (ArtParams.mk (Some complexity) timeSpent (Some demand)) in
  let r0 := calculateArtPrice
              (ArtParams.mk (Some "medium"%string) timeSpent
                            (Some "normal"%string)) in
  base_alc r = VNumber (Fin 10)
  /\ base_alc r = base_alc r0
  /\ final_price_alc r = final_price_alc r0.
Proof.
  intros Hc1 Hc2 Hd1 Hd2. unfold calculateArtPrice.
  cbn [ArtParams.complexity ArtParams.timeSpent ArtParams.demand default
       base_alc final_price_alc].
  rewrite (get_fallback complexityRates complexity) by assumption.
  rewrite (get_fallback demandMultipliers demand) by assumption.
  repeat split.
Qed.

Lemma calculateTokenValue_fallback
      (type utility : string) (scarcity : option num) :
  own typeMultipliers type = None ->
  Object_prototype type = VUndefined ->
  own utilityRates utility = None ->
  Object_prototype utility = VUndefined ->
  let r := calculateTokenValue
             (TokenParams.mk (Some type) (Some utility) scarcity) in
  let r0 := calculateTokenValue
              (TokenParams.mk (Some "standard"%string) (Some "medium"%string)
                              scarcity) in
  base_value_alc r = base_value_alc r0.
Proof.
  intros Ht1 Ht2 Hu1 Hu2. unfold calculateTokenValue.
  cbn [TokenParams.type TokenParams.utility TokenParams.scarcity default
       base_value_alc].
  rewrite (get_fallback utilityRates utility) by assumption.
  rewrite (get_fallback typeMultipliers type) by assumption.
  reflexivity.
Qed.

(** C8 at an input where it fails.  The strings [constructor] and
    [toString] are outside every documented enumeration, but the rate
    tables inherit members of these names from [Object.prototype]; the
    lookup finds a function, [||] keeps it, and the price is [NaN], where
    the default category gives 45 and 10. *)
Theorem calculateArtPrice_inherited_member :
  let art complexity :=
    calculateArtPrice
      (ArtParams.mk (Some complexity) (Some (Fin 3)) (Some "high"%string)) in
  let token type :=
    calculateTokenValue
      (TokenParams.mk (Some type) (Some "medium"%string) None) in
  own complexityRates "constructor" = None
  /\ base_alc (art "constructor"%string) = VFunction "constructor"
  /\ final_price_alc (art "constructor"%string) = NaN
  /\ eqb (final_price_alc (art "medium"%string)) (Fin 45) = true
  /\ own typeMultipliers "toString" = None
  /\ base_value_alc (token "toString"%string) = NaN
  /\ eqb (base_value_alc (token "standard"%string)) (Fin 10) = true.
Proof. cbv zeta. repeat split. Qed.

End DynamicFacts.

(** ** FairPricing: further properties of [validatePrice] *)

Module FairPricingExtra.
Import FairPricing FairPricingSpec FairPricingFacts.

Lemma length_pushed (h : list num) (x : num) :
  (length h <= 100)%nat -> length (pushed h x) = Nat.min (length h + 1) 100.
Proof.
  intros Hlen. unfold pushed.
  assert (Happ : length (h ++ [x]) = (length h + 1)%nat)
    by (rewrite length_app; reflexivity).
  destruct (100 <? length (h ++ [x]))%nat eqn:E.
  - apply Nat.ltb_lt in E.
    assert (Htl : length (tl (h ++ [x])) = (length (h ++ [x]) - 1)%nat)
      by (destruct (h ++ [x]); simpl; lia).
    lia.
  - apply Nat.ltb_ge in E. lia.
Qed.

Lemma validate_all_length (calls : list (num * Context.t)) (this : t) :
  (length (priceHistory this) <= 100)%nat ->
  length (priceHistory (validate_all this calls))
  = Nat.min (length (priceHistory this) + length calls) 100.
Proof.
  revert this. induction calls as [|[p c] calls IH]; intros this Hlen.
  - cbn [validate_all fold_left length]. lia.
  - cbn [validate_all fold_left fst snd length].
    change (fold_left _ calls ?s) with (validate_all s calls).
    rewrite IH; rewrite validatePrice_history, length_pushed by exact Hlen; lia.
Qed.

(** The history holds one entry per call until it holds 100, and never
    more, whatever the prices are ([NaN] included). *)
Theorem priceHistory_length (calls : list (num * Context.t)) :
  length (priceHistory (validate_all constructor calls))
  = Nat.min (length calls) 100.
Proof.
  rewrite validate_all_length; cbn [constructor priceHistory length]; lia.
Qed.

(** The issues of one call, read off the three checks. *)
Lemma validatePrice_issues (this : t) (p : num) (context : Context.t) :
  issues (fst (validatePrice this p context))
  = (if (p <? priceFloor this)%js then ["price_too_low"%string] else [])
    ++ (if ((if (p <? priceFloor this)%js then priceFloor this else p)
             >? priceCeiling this)%js
        then ["price_too_high"%string] else [])
    ++ (if (0 <? length (priceHistory this))%nat
        then if (Math.abs (bounded_price this p - last_entry (priceHistory this))
                 / last_entry (priceHistory this) >? maxChangeRate this)%js
             then ["price_change_too_rapid"%string] else []
        else []).
Proof.
  unfold validatePrice, bounded_price. split_ifs; reflexivity.
Qed.

Lemma validatePrice_is_fair (this : t) (p : num) (context : Context.t) :
  is_fair (fst (validatePrice this p context))
  = (length (issues (fst (validatePrice this p context))) =? 0)%nat.
Proof. unfold validatePrice. split_ifs; reflexivity. Qed.

(** A finite price is reported too low exactly when it is below 0.01 and
    too high exactly when it is above 10000, whatever the history; and a
    call is fair exactly when it records no issue. *)
Theorem validatePrice_bounds_issues
        (this : t) (p : Q) (context : Context.t) :
  standard this ->
  let r := fst (validatePrice this (Fin p) context) in
  (In "price_too_low"%string (issues r) <-> p < 0.01)
  /\ (In "price_too_high"%string (issues r) <-> 10000 < p)
  /\ (is_fair r = true <-> issues r = []).
Proof.
  intros (Hf & Hc & _) r. subst r. split; [|split].
  - rewrite validatePrice_issues, Hf, Hc. unfold gtb. cbn [ltb].
    destruct (Qltb p 0.01) eqn:E1.
    + apply Qltb_true in E1. split; [intros _; exact E1|intros _; left; reflexivity].
    + apply Qltb_false in E1. split; [|intros H; lra].
      intros H. cbn [app] in H. apply in_app_or in H. destruct H as [H|H].
      * destruct (Qltb 10000 p); cbn [In] in H; [destruct H as [H|[]]|destruct H].
        discriminate H.
      * exfalso. revert H. split_ifs; cbn [In]; intros [H|[]] || intros []; discriminate H.
  - rewrite validatePrice_issues, Hf, Hc. unfold gtb. cbn [ltb].
    destruct (Qltb p 0.01) eqn:E1.
    + apply Qltb_true in E1. cbn [ltb].
      assert (E : Qltb 10000 0.01 = false) by reflexivity. rewrite E.
      split; [|intros H; lra].
      cbn [app In]. intros [H|H]; [discriminate H|].
      exfalso. revert H. split_ifs; cbn [In]; intros [H|[]] || intros []; discriminate H.
    + apply Qltb_false in E1. cbn [app].
      destruct (Qltb 10000 p) eqn:E2.
      * apply Qltb_true in E2. split; [intros _; exact E2|intros _; left; reflexivity].
      * apply Qltb_false in E2. split; [|intros H; lra].
        cbn [app]. intros H. exfalso. revert H.
        split_ifs; cbn [In]; intros [H|[]] || intros []; discriminate H.
  - rewrite validatePrice_is_fair.
    destruct (issues (fst (validatePrice this (Fin p) context))); cbn.
    + split; reflexivity.
    + split; discriminate.
Qed.

Lemma validatePrice_bounds_issues_witness :
  let r := fst (validatePrice constructor (Fin 20000) Context.empty) in
  In "price_too_high"%string (issues r) <-> 10000 < 20000.
Proof.
  apply (validatePrice_bounds_issues constructor 20000 Context.empty).
  repeat split.
Defined.

Lemma reachable_invariant (earlier : list (num * Context.t)) :
  Forall (fun c => not_NaN (fst c)) earlier ->
  standard (validate_all constructor earlier)
  /\ Forall in_bounds (priceHistory (validate_all constructor earlier)).
Proof.
  intros He.
  exact (validate_all_invariant earlier constructor constructor_standard
           (Forall_nil _) He).
Qed.


Lemma bounded_price_in_bounds (this : t) (p : Q) :
  standard this -> 0.01 <= p <= 10000 -> bounded_price this (Fin p) = Fin p.
Proof.
  intros (Hf & Hc & _) [Hlo Hhi]. unfold bounded_price, gtb.
  rewrite Hf, Hc. cbn [ltb].
  assert (E1 : Qltb p 0.01 = false) by (apply Qltb_false; exact Hlo).
  assert (E2 : Qltb 10000 p = false) by (apply Qltb_false; exact Hhi).
  rewrite E1. cbn [ltb]. rewrite E2. reflexivity.
Qed.

(** The test of the rapid-change check on two finite prices, the last
    one positive. *)
Lemma change_test (this : t) (l p : Q) :
  standard this -> 0 < l ->
  (Math.abs (Fin p - Fin l) / Fin l >? maxChangeRate this)%js
  = Qltb (0.25 * l) (Qabs (p - l)).
Proof.
  intros (_ & _ & Hm) Hl. rewrite Hm. unfold gtb.
  cbn [Math.abs sub add neg div].
  assert (E0 : Qeq_bool l 0 = false) by (apply Qeq_bool_false; lra).
  rewrite E0. cbn [ltb]. change (p + - l) with (p - l).
  destruct (Qltb (0.25 * l) (Qabs (p - l))) eqn:E.
  - apply Qltb_true. apply Qltb_true in E. apply Qdiv_gt_bound; assumption.
  - apply Qltb_false. apply Qltb_false in E. apply Qdiv_le_bound; assumption.
Qed.

(** A price within the bounds and within 25% of the last accepted price
    (or the first price of all) passes unchanged: no issue, [is_fair],
    score 1.00, the price itself pushed on the history and returned
    rounded to two decimals. *)
Theorem validatePrice_fair_price_unchanged
        (earlier : list (num * Context.t)) (p : Q) (context : Context.t) :
  Forall (fun c => not_NaN (fst c)) earlier ->
  0.01 <= p <= 10000 ->
  let this := validate_all constructor earlier in
  (forall l, last_entry (priceHistory this) = Fin l ->
             Qabs (p - l) <= 0.25 * l) ->
  let r := validatePrice this (Fin p) context in
  issues (fst r) = []
  /\ is_fair (fst r) = true
  /\ priceHistory (snd r) = pushed (priceHistory this) (Fin p)
  /\ validated_price (fst r) = Fin (round_half_up 2 p)
  /\ exists s, fairness_score (fst r) = Decimal 2 (Fin s) /\ s == 1.
Proof.
  intros He Hp this Hnear r.
  destruct (reachable_invariant earlier He) as [Hs HF]. fold this in Hs, HF.
  assert (Hb : bounded_price this (Fin p) = Fin p)
    by (apply bounded_price_in_bounds; assumption).
  assert (Htest : (0 <? length (priceHistory this))%nat = true ->
                  (Math.abs (Fin p - last_entry (priceHistory this))
                   / last_entry (priceHistory this) >? maxChangeRate this)%js
                  = false).
  { intros Hne.
    assert (Hl : in_bounds (last_entry (priceHistory this))).
    { apply last_entry_Forall; [exact HF|].
      destruct (priceHistory this); [discriminate|congruence]. }
    destruct (last_entry (priceHistory this)) as [l| | |] eqn:El;
      cbn [in_bounds] in Hl; try contradiction.
    rewrite change_test by (try exact Hs; lra).
    apply Qltb_false. apply Hnear. reflexivity. }
  assert (Ha : accepted_price this (Fin p) = Fin p).
  { unfold accepted_price. rewrite Hb.
    destruct (0 <? length (priceHistory this))%nat eqn:E; [|reflexivity].
    unfold limited_price. rewrite Htest; reflexivity. }
  assert (Hi : issues (fst r) = []).
  { subst r. rewrite validatePrice_issues, Hb.
    destruct (0 <? length (priceHistory this))%nat eqn:E;
      [rewrite (Htest eq_refl)|];
      destruct Hs as (Hf & Hc & _); rewrite Hf, Hc; unfold gtb; cbn [ltb];
      assert (E1 : Qltb p 0.01 = false) by (apply Qltb_false; apply Hp);
      assert (E2 : Qltb 10000 p = false) by (apply Qltb_false; apply Hp);
      rewrite E1; cbn [ltb]; rewrite E2; reflexivity. }
  split; [exact Hi|]. split.
  { subst r. rewrite validatePrice_is_fair, Hi. reflexivity. }
  split.
  { subst r. rewrite validatePrice_history, Ha. reflexivity. }
  split.
  { subst r. rewrite validatePrice_validated_price, Ha.
    rewrite toFixed_nonneg; [reflexivity|lra|].
    apply Qle_lt_trans with (y := 10000); [apply Hp|reflexivity]. }
  assert (Hscore : fairness_score (fst r)
                   = fst (calculateFairnessScore (snd r) (issues (fst r)))).
  { subst r. unfold validatePrice, calculateFairnessScore.
    split_ifs; reflexivity. }
  rewrite Hscore, Hi. eexists. split; [vm_compute; reflexivity|reflexivity].
Qed.

Lemma validatePrice_fair_price_unchanged_witness :
  let this := validate_all constructor [(Fin 100, Context.empty)] in
  let r := validatePrice this (Fin 110) Context.empty in
  issues (fst r) = [] /\ is_fair (fst r) = true.
Proof.
  intros this r.
  destruct (validatePrice_fair_price_unchanged
              [(Fin 100, Context.empty)] 110 Context.empty)
    as (Hi & Hfair & _).
  - repeat constructor.
  - split; [apply Qle_bool_iff|apply Qle_bool_iff]; reflexivity.
  - intros l Hl. injection Hl as <-. apply Qle_bool_iff. reflexivity.
  - split; assumption.
Defined.




End FairPricingExtra.

(** ** FairPricing: the composed entry point and the metrics *)

Module FairReportsExtra.
Import FairPricing FairPricingSpec FairPricingFacts FairPricingReports.

Lemma validated_price_in_bounds
      (earlier : list (num * Context.t)) (p : num) (context : Context.t) :
  Forall (fun c => not_NaN (fst c)) earlier -> not_NaN p ->
  in_bounds (validated_price
               (fst (validatePrice (validate_all constructor earlier)
                                   p context))).
Proof.
  intros He Hp.
  destruct (validate_all_invariant earlier constructor constructor_standard
              (Forall_nil _) He) as [Hs HF].
  rewrite validatePrice_validated_price.
  apply toFixed2_in_bounds, accepted_price_in_bounds; assumption.
Qed.

(** The market check when the candidates are one positive value, twice:
    the price itself for want of market data, or the market's value. *)
Lemma mean_twice (m : Q) : mean [m; m] == m.
Proof.
  unfold mean, Qsum. cbn [fold_left length].
  change (inject_Z (Z.of_nat 2)) with 2. field.
Qed.

Lemma ensureFairMarket_twice (v m : Q) (marketData : MarketData.t) :
  0 < m ->
  allPrices (Fin v) marketData = map Fin [m; m] ->
  ensureFairMarket (Fin v) marketData
  = if Qltb (0.3 * m) (Qabs (v - m))
    then Aligned (Fin v) (toFixed 2 (Fin (mean [m; m])))
                 (toFixed 2 (Fin (mean [m; m])))
                 (toFixed 1 (Fin (Qabs (v - mean [m; m]) / mean [m; m] * 100)))
    else Within_range (Fin v) (toFixed 2 (Fin (mean [m; m])))
                      (toFixed 1 (Fin (Qabs (v - mean [m; m]) / mean [m; m]
                                       * 100))).
Proof.
  intros Hm Hall. unfold ensureFairMarket. rewrite Hall.
  rewrite FairMarketFacts.marketAverage_mean by discriminate.
  pose proof (mean_twice m) as Hmu.
  rewrite FairMarketFacts.deviation_Fin by lra.
  unfold gtb. cbn [ltb mul].
  assert (E : Qltb 0.3 (Qabs (v - mean [m; m]) / mean [m; m])
              = Qltb (0.3 * m) (Qabs (v - m))).
  { destruct (Qltb (0.3 * m) (Qabs (v - m))) eqn:E1.
    - apply Qltb_true in E1. apply Qltb_true.
      apply Qdiv_gt_bound; [lra|]. rewrite Hmu. exact E1.
    - apply Qltb_false in E1. apply Qltb_false.
      apply Qdiv_le_bound; [lra|]. rewrite Hmu. exact E1. }
  rewrite E. reflexivity.
Qed.

Lemma allPrices_alone (v : Q) :
  0 < v -> allPrices (Fin v) MarketData.empty = map Fin [v; v].
Proof.
  intros Hv. unfold allPrices.
  cbn [MarketData.averagePrice MarketData.medianPrice
       MarketData.competitorPrices MarketData.empty default app filter].
  unfold gtb. cbn [ltb].
  assert (E : Qltb 0 v = true) by (apply Qltb_true; exact Hv).
  rewrite E. reflexivity.
Qed.

Lemma allPrices_market (v m : Q) :
  0 < m ->
  allPrices (Fin v) (MarketData.mk (Some (Fin m)) (Some (Fin m)) None)
  = map Fin [m; m].
Proof.
  intros Hm. unfold allPrices.
  cbn [MarketData.averagePrice MarketData.medianPrice
       MarketData.competitorPrices default app filter].
  unfold gtb. cbn [ltb].
  assert (E : Qltb 0 m = true) by (apply Qltb_true; exact Hm).
  rewrite E. reflexivity.
Qed.

Lemma ensureFairMarket_alone (v : Q) :
  0 < v ->
  exists m d, ensureFairMarket (Fin v) MarketData.empty = Within_range (Fin v) m d.
Proof.
  intros Hv.
  rewrite (ensureFairMarket_twice v v) by (try apply allPrices_alone; exact Hv).
  assert (E : Qltb (0.3 * v) (Qabs (v - v)) = false).
  { apply Qltb_false. assert (H0 : v - v == 0) by ring. rewrite H0.
    cbn. lra. }
  rewrite E. eexists. eexists. reflexivity.
Qed.

(** Without market data [applyFairPricing] is [validatePrice]: it leaves
    the same instance, confirms the market check and returns the
    validated price, a number between 0.01 and 10000, as [fair_price]. *)
Theorem applyFairPricing_without_market_data
        (earlier : list (num * Context.t)) (p : num) (context : Context.t) :
  Forall (fun c => not_NaN (fst c)) earlier -> not_NaN p ->
  let this := validate_all constructor earlier in
  let r := applyFairPricing this p context None in
  snd r = snd (validatePrice this p context)
  /\ validation (fst r) = fst (validatePrice this p context)
  /\ adjusted (market_check (fst r)) = false
  /\ exists v,
      fair_price (fst r) = Number (Fin v) /\ 0.01 <= v <= 10000.
Proof.
  intros He Hp this r.
  pose proof (validated_price_in_bounds earlier p context He Hp) as Hv.
  fold this in Hv. subst r. unfold applyFairPricing.
  destruct (validatePrice this p context) as [val st].
  cbn [fst snd validation market_check fair_price] in *.
  destruct (validated_price val) as [v| | |]; cbn [in_bounds] in Hv;
    try contradiction.
  destruct (ensureFairMarket_alone v) as (m & d & E); [lra|].
  rewrite E. cbn [adjusted].
  repeat split. exists v. split; [reflexivity|exact Hv].
Qed.

Lemma applyFairPricing_without_market_data_witness :
  let r := applyFairPricing (validate_all constructor [(Fin 5, Context.empty)])
                            (Fin 100) Context.empty None in
  exists v, fair_price (fst r) = Number (Fin v) /\ 0.01 <= v <= 10000.
Proof.
  apply (applyFairPricing_without_market_data
           [(Fin 5, Context.empty)] (Fin 100) Context.empty).
  - repeat constructor.
  - reflexivity.
Defined.

(** The market check is not validated again: when [averagePrice] and
    [medianPrice] are both [m], at least 14286 (and at most [printable],
    so that [toFixed] writes it in decimal notation), and there is no competitor,
    [applyFairPricing] returns [m], printed with two decimals, as
    [fair_price], above the ceiling 10000, whatever number (anything
    but [NaN]) was proposed. *)
Theorem applyFairPricing_follows_market
        (earlier : list (num * Context.t)) (p : num) (context : Context.t)
        (m : Q) :
  Forall (fun c => not_NaN (fst c)) earlier -> not_NaN p ->
  14286 <= m <= Rounding.printable ->
  let this := validate_all constructor earlier in
  let marketData :=
    MarketData.mk (Some (Fin m)) (Some (Fin m)) None in
  let r := applyFairPricing this p context (Some marketData) in
  adjusted (market_check (fst r)) = true
  /\ exists mu,
      mu == m /\ fair_price (fst r) = Text (toFixed 2 (Fin mu)).
Proof.
  intros He Hp [Hm _] this marketData r.
  pose proof (validated_price_in_bounds earlier p context He Hp) as Hv.
  fold this in Hv. subst r. unfold applyFairPricing.
  destruct (validatePrice this p context) as [val st].
  cbn [fst snd validation market_check fair_price] in *.
  destruct (validated_price val) as [v| | |]; cbn [in_bounds] in Hv;
    try contradiction.
  unfold marketData.
  rewrite (ensureFairMarket_twice v m) by (try apply allPrices_market; lra).
  assert (E : Qltb (0.3 * m) (Qabs (v - m)) = true).
  { apply Qltb_true. rewrite Qabs_neg by lra. lra. }
  rewrite E. cbn [adjusted]. split; [reflexivity|].
  exists (mean [m; m]). split; [apply mean_twice|reflexivity].
Qed.

Lemma applyFairPricing_follows_market_witness :
  let marketData := MarketData.mk (Some (Fin 50000)) (Some (Fin 50000)) None in
  let r := applyFairPricing (validate_all constructor [])
                            (Fin 5) Context.empty (Some marketData) in
  adjusted (market_check (fst r)) = true
  /\ exists mu, mu == 50000 /\ fair_price (fst r) = Text (toFixed 2 (Fin mu)).
Proof.
  apply (applyFairPricing_follows_market [] (Fin 5) Context.empty 50000).
  - constructor.
  - reflexivity.
  - split; apply Qle_bool_iff; reflexivity.
Defined.

Lemma validatePrice_fairnessScore (this : t) (p : num) (context : Context.t) :
  let r := validatePrice this p context in
  fairnessScore (snd r)
  = Math.max (Fin 1.0 - length_num (issues (fst r)) * Fin 0.2)%js (Fin 0)
  /\ fairness_score (fst r) = toFixed 2 (fairnessScore (snd r)).
Proof.
  cbv zeta. unfold validatePrice, calculateFairnessScore.
  split_ifs; split; reflexivity.
Qed.

Lemma issues_at_most_three (this : t) (p : num) (context : Context.t) :
  (length (issues (fst (validatePrice this p context))) <= 3)%nat.
Proof.
  rewrite FairPricingExtra.validatePrice_issues, !length_app.
  split_ifs; cbn [length]; lia.
Qed.

(** After a call of [validatePrice], [getFairnessMetrics] repeats the
    score of the call, and its [status] is [excellent] when the call
    found no issue, [good] when it found one and [needs_improvement]
    when it found more. *)
Theorem getFairnessMetrics_after_validatePrice
        (this : t) (p : num) (context : Context.t) :
  let r := validatePrice this p context in
  let m := getFairnessMetrics (snd r) in
  metrics_fairness_score m = fairness_score (fst r)
  /\ status m = match length (issues (fst r)) with
                | O => "excellent"
                | S O => "good"
                | _ => "needs_improvement"
                end%string.
Proof.
  intros r m.
  destruct (validatePrice_fairnessScore this p context) as [Hscore Hprint].
  fold r in Hscore, Hprint.
  pose proof (issues_at_most_three this p context) as Hlen. fold r in Hlen.
  subst m. unfold getFairnessMetrics. cbn [metrics_fairness_score status].
  split; [symmetry; exact Hprint|].
  rewrite Hscore. unfold length_num.
  destruct (length (issues (fst r))) as [|[|[|[|n]]]]; try reflexivity.
  cbn in Hlen. lia.
Qed.

(** [getFairnessMetrics] never reports more than 100 prices tracked. *)
Theorem prices_tracked_at_most_100 (calls : list (num * Context.t)) :
  (prices_tracked (getFairnessMetrics (validate_all constructor calls))
   <= 100)%nat.
Proof.
  unfold getFairnessMetrics. cbn [prices_tracked].
  rewrite FairPricingExtra.validate_all_length;
    cbn [constructor priceHistory length]; lia.
Qed.

End FairReportsExtra.

(** ** FairPricing: what [detectManipulation] reports, and only reports *)

Module ManipulationExtra.
Import FairPricing FairPricingSpec ExtraSpec.

Lemma last_cons_default {A : Type} (l : list A) (a d d' : A) :
  last (a :: l) d = last (a :: l) d'.
Proof.
  revert a. induction l as [|b l IH]; intros a; [reflexivity|].
  change (last (a :: b :: l) d) with (last (b :: l) d).
  change (last (a :: b :: l) d') with (last (b :: l) d'). apply IH.
Qed.

Lemma strictly_increasing_snoc (first : num) (run : list num) (x : num) :
  strictly_increasing first run ->
  (x >? last run first)%js = true ->
  strictly_increasing first (run ++ [x]).
Proof.
  revert first. induction run as [|y run IH]; intros first Hinc Hx.
  - cbn in *. split; [exact Hx|exact I].
  - destruct Hinc as [Hy Hrun]. cbn [app strictly_increasing].
    split; [exact Hy|]. apply IH; [exact Hrun|].
    destruct run as [|z run]; [exact Hx|].
    rewrite (last_cons_default run z y first). exact Hx.
Qed.

(** The loop leaves through [break] only after five consecutive strict
    increases: [seen] is what it has read, ending with the run counted
    by [count]. *)
Lemma inflation_loop_sound
      (rest : list num) (prev : num) (count : nat)
      (pre : list num) (first : num) (run : list num) :
  last run first = prev -> length run = count -> (count < 5)%nat ->
  strictly_increasing first run ->
  inflation_loop prev rest count = true ->
  exists pre' first' run' post',
    pre ++ first :: run ++ rest = pre' ++ first' :: run' ++ post'
    /\ length run' = 5%nat
    /\ strictly_increasing first' run'.
Proof.
  revert prev count pre first run.
  induction rest as [|x rest IH];
    intros prev count pre first run Hlast Hlen Hlt Hinc Hloop;
    cbn [inflation_loop] in Hloop; [discriminate|].
  destruct (x >? prev)%js eqn:Hx.
  - destruct (5 <=? S count)%nat eqn:E.
    + apply Nat.leb_le in E.
      exists pre, first, (run ++ [x]), rest. split; [|split].
      * rewrite <- app_assoc. reflexivity.
      * rewrite length_app. cbn [length]. lia.
      * apply strictly_increasing_snoc; [exact Hinc|]. rewrite Hlast. exact Hx.
    + apply Nat.leb_gt in E.
      destruct (IH x (S count) pre first (run ++ [x])) as (pre' & f' & r' & po' & H);
        try assumption.
      * apply last_last.
      * rewrite length_app. cbn [length]. lia.
      * apply strictly_increasing_snoc; [exact Hinc|]. rewrite Hlast. exact Hx.
      * exists pre', f', r', po'. rewrite <- app_assoc in H. exact H.
  - cbn [Nat.leb] in Hloop.
    destruct (IH x O (pre ++ first :: run) x []) as (pre' & f' & r' & po' & H);
      try assumption; try reflexivity; try lia; try exact I.
    exists pre', f', r', po'.
    rewrite <- app_assoc in H. cbn [app] in H. exact H.
Qed.

(** The monotonic-run check fires only on a sequence that contains six
    prices in a row, each strictly above the one before. *)
Theorem inflation_check_sound (priceSequence : list num) :
  inflation_check priceSequence = true ->
  exists pre first run post,
    priceSequence = pre ++ first :: run ++ post
    /\ length run = 5%nat
    /\ strictly_increasing first run.
Proof.
  destruct priceSequence as [|first rest]; cbn [inflation_check];
    [discriminate|].
  intros Hloop.
  apply (inflation_loop_sound rest first 0 [] first []);
    try reflexivity; try lia; try exact I; exact Hloop.
Qed.

Lemma inflation_check_sound_witness :
  exists pre first run post,
    [Fin 7; Fin 1; Fin 2; Fin 3; Fin 4; Fin 5; Fin 6]
    = pre ++ first :: run ++ post
    /\ length run = 5%nat
    /\ strictly_increasing first run.
Proof.
  apply (inflation_check_sound
           [Fin 7; Fin 1; Fin 2; Fin 3; Fin 4; Fin 5; Fin 6]).
  reflexivity.
Defined.

(** The largest and the smallest of finite prices. *)
Lemma fold_max_Fin (xs : list Q) (acc : Q) :
  exists M,
    fold_left Math.max (map Fin xs) (Fin acc) = Fin M
    /\ (M = acc \/ In M xs)
    /\ acc <= M
    /\ forall x, In x xs -> x <= M.
Proof.
  revert acc. induction xs as [|x xs IH]; intros acc.
  - exists acc. cbn. repeat split; [left; reflexivity|apply Qle_refl|tauto].
  - cbn [map fold_left]. unfold Math.max at 2. cbn [is_NaN orb ltb].
    destruct (Qltb acc x) eqn:E.
    + apply Qltb_true in E. destruct (IH x) as (M & HM & Hin & Hle & Hall).
      exists M. split; [exact HM|]. split.
      * right. destruct Hin as [->|Hin]; [left; reflexivity|right; exact Hin].
      * split; [lra|]. intros y [<-|Hy]; [exact Hle|apply Hall, Hy].
    + apply Qltb_false in E. destruct (IH acc) as (M & HM & Hin & Hle & Hall).
      exists M. split; [exact HM|]. split.
      * destruct Hin as [->|Hin]; [left; reflexivity|right; right; exact Hin].
      * split; [exact Hle|]. intros y [<-|Hy]; [lra|apply Hall, Hy].
Qed.

Lemma fold_min_Fin (xs : list Q) (acc : Q) :
  exists m,
    fold_left Math.min (map Fin xs) (Fin acc) = Fin m
    /\ (m = acc \/ In m xs)
    /\ m <= acc
    /\ forall x, In x xs -> m <= x.
Proof.
  revert acc. induction xs as [|x xs IH]; intros acc.
  - exists acc. cbn. repeat split; [left; reflexivity|apply Qle_refl|tauto].
  - cbn [map fold_left]. unfold Math.min at 2. cbn [is_NaN orb ltb].
    destruct (Qltb x acc) eqn:E.
    + apply Qltb_true in E. destruct (IH x) as (m & Hm & Hin & Hle & Hall).
      exists m. split; [exact Hm|]. split.
      * right. destruct Hin as [->|Hin]; [left; reflexivity|right; exact Hin].
      * split; [lra|]. intros y [<-|Hy]; [exact Hle|apply Hall, Hy].
    + apply Qltb_false in E. destruct (IH acc) as (m & Hm & Hin & Hle & Hall).
      exists m. split; [exact Hm|]. split.
      * destruct Hin as [->|Hin]; [left; reflexivity|right; right; exact Hin].
      * split; [exact Hle|]. intros y [<-|Hy]; [lra|apply Hall, Hy].
Qed.

Lemma max_of_Fin (x : Q) (xs : list Q) :
  exists M,
    Math.max_of (map Fin (x :: xs)) = Fin M
    /\ In M (x :: xs) /\ forall y, In y (x :: xs) -> y <= M.
Proof.
  unfold Math.max_of. cbn [map fold_left].
  change (Math.max NInf (Fin x)) with (Fin x).
  destruct (fold_max_Fin xs x) as (M & HM & Hin & Hle & Hall).
  exists M. split; [exact HM|]. split.
  - destruct Hin as [->|Hin]; [left; reflexivity|right; exact Hin].
  - intros y [<-|Hy]; [exact Hle|apply Hall, Hy].
Qed.

Lemma min_of_Fin (x : Q) (xs : list Q) :
  exists m,
    Math.min_of (map Fin (x :: xs)) = Fin m
    /\ In m (x :: xs) /\ forall y, In y (x :: xs) -> m <= y.
Proof.
  unfold Math.min_of. cbn [map fold_left].
  change (Math.min PInf (Fin x)) with (Fin x).
  destruct (fold_min_Fin xs x) as (m & Hm & Hin & Hle & Hall).
  exists m. split; [exact Hm|]. split.
  - destruct Hin as [->|Hin]; [left; reflexivity|right; exact Hin].
  - intros y [<-|Hy]; [exact Hle|apply Hall, Hy].
Qed.

(** On five or more positive prices the number of suspicious patterns is
    one for a monotonic run plus one for a highest price more than 1.5
    times the lowest; the sequence is flagged exactly when one of the two
    holds. *)
Theorem detectManipulation_counts (prices : list Q) :
  (5 <= length prices)%nat ->
  Forall (fun x => 0 < x) prices ->
  exists highest lowest,
    In highest prices /\ In lowest prices
    /\ (forall x, In x prices -> lowest <= x <= highest)
    /\ let r := detectManipulation (map Fin prices) in
       suspicious_patterns r
       = Some (Nat.add (count_if (inflation_check (map Fin prices)))
                       (count_if (Qltb (1.5 * lowest) highest)))
       /\ manipulation_detected r
          = orb (inflation_check (map Fin prices))
                (Qltb (1.5 * lowest) highest).
Proof.
  intros Hlen Hpos. destruct prices as [|x xs]; [cbn in Hlen; lia|].
  destruct (max_of_Fin x xs) as (M & HM & HinM & HallM).
  destruct (min_of_Fin x xs) as (m & Hm & Hinm & Hallm).
  exists M, m. split; [exact HinM|]. split; [exact Hinm|]. split.
  { intros y Hy. split; [apply Hallm, Hy|apply HallM, Hy]. }
  assert (Hmpos : 0 < m) by (rewrite Forall_forall in Hpos; apply Hpos, Hinm).
  unfold detectManipulation.
  assert (Hsize : (length (map Fin (x :: xs)) <? 5)%nat = false)
    by (apply Nat.ltb_ge; rewrite length_map; exact Hlen).
  rewrite Hsize, HM, Hm. cbn [sub add neg div].
  assert (E0 : Qeq_bool m 0 = false) by (apply Qeq_bool_false; lra).
  rewrite E0. unfold gtb. cbn [ltb].
  assert (E : Qltb 0.5 ((M + - m) / m) = Qltb (1.5 * m) M).
  { destruct (Qltb (1.5 * m) M) eqn:E1.
    - apply Qltb_true in E1. apply Qltb_true.
      apply Qdiv_gt_bound; [exact Hmpos|lra].
    - apply Qltb_false in E1. apply Qltb_false.
      apply Qdiv_le_bound; [exact Hmpos|lra]. }
  rewrite E.
  destruct (inflation_check (map Fin (x :: xs))), (Qltb (1.5 * m) M);
    split; reflexivity.
Qed.

Lemma detectManipulation_counts_witness :
  exists highest lowest,
    In highest [10; 11; 10; 12; 11] /\ In lowest [10; 11; 10; 12; 11]
    /\ (forall x, In x [10; 11; 10; 12; 11] -> lowest <= x <= highest)
    /\ let r := detectManipulation (map Fin [10; 11; 10; 12; 11]) in
       suspicious_patterns r
       = Some (Nat.add
                 (count_if (inflation_check (map Fin [10; 11; 10; 12; 11])))
                 (count_if (Qltb (1.5 * lowest) highest)))
       /\ manipulation_detected r
          = orb (inflation_check (map Fin [10; 11; 10; 12; 11]))
                (Qltb (1.5 * lowest) highest).
Proof.
  apply (detectManipulation_counts [10; 11; 10; 12; 11]).
  - cbn [length]. lia.
  - repeat constructor.
Defined.

End ManipulationExtra.

(** ** CapacitorModel: how the charge moves *)

Module CapacitorExtra.
Import CapacitorModel CapacitorSpec.

Ltac split_Qltb :=
  repeat match goal with
         | |- context [if Qltb ?a ?b then _ else _] =>
             let E := fresh "E" in
             destruct (Qltb a b) eqn:E;
             [apply Qltb_true in E|apply Qltb_false in E]
         end.

(** In exact arithmetic one [autoBalance] moves the charge by 0.02, or
    onto 0.5 when it is no further away than that. *)
Lemma autoBalance_step (this : t) (c : Q) :
  charge this = Fin c ->
  exists c',
    charge (snd (autoBalance this)) = Fin c'
    /\ (0.52 < c -> c' == c - 0.02)
    /\ (c < 0.48 -> c' == c + 0.02)
    /\ (0.48 <= c <= 0.52 -> c' == 0.5).
Proof.
  intros Hc. unfold autoBalance, Math.min, gtb. rewrite Hc.
  cbn [snd sub add neg is_NaN orb ltb].
  split_Qltb; cbn [charge set_charge add neg]; try rewrite Hc;
    eexists; (split; [reflexivity|]);
    repeat split; intros;
    repeat match goal with H : _ /\ _ |- _ => destruct H end; lra.
Qed.



Lemma autoBalance_repeat (n : nat) (this : t) (c : Q) :
  charge this = Fin c ->
  0.5 - 0.02 * inject_Z (Z.of_nat n) <= c <= 0.5 + 0.02 * inject_Z (Z.of_nat n) ->
  exists c',
    charge (perform_all this (repeat AutoBalance n)) = Fin c' /\ c' == 0.5.
Proof.
  revert this c. induction n as [|n IH]; intros this c Hc Hnear.
  - exists c. split; [exact Hc|]. destruct Hnear as [H1 H2].
    change (inject_Z (Z.of_nat 0)) with 0 in H1, H2. lra.
  - cbn [repeat perform_all fold_left perform].
    destruct (autoBalance_step this c Hc) as (c1 & Hc1 & Hup & Hdown & Hmid).
    apply (IH _ c1 Hc1).
    rewrite Nat2Z.inj_succ in Hnear. unfold Z.succ in Hnear.
    rewrite inject_Z_plus in Hnear. change (inject_Z 1) with 1 in Hnear.
    assert (Hn : 0 <= inject_Z (Z.of_nat n))
      by (change 0 with (inject_Z 0); rewrite <- Zle_Qle; lia).
    destruct Hnear as [Hn1 Hn2].
    destruct (Qlt_le_dec 0.52 c) as [H1|H1].
    + rewrite (Hup H1). lra.
    + destruct (Qlt_le_dec c 0.48) as [H2|H2].
      * rewrite (Hdown H2). lra.
      * rewrite (Hmid (conj H2 H1)). lra.
Qed.

(** From any charge between 0 and 1, twenty-five calls of [autoBalance],
    or more, bring the charge to 0.5, where it stays. *)
Theorem autoBalance_settles (this : t) (c : Q) (n : nat) :
  charge this = Fin c -> 0 <= c <= 1 -> (25 <= n)%nat ->
  exists c',
    charge (perform_all this (repeat AutoBalance n)) = Fin c' /\ c' == 0.5.
Proof.
  intros Hc Hunit Hn. apply (autoBalance_repeat n this c Hc).
  assert (H25 : 25 <= inject_Z (Z.of_nat n)).
  { change 25 with (inject_Z 25). rewrite <- Zle_Qle. lia. }
  lra.
Qed.

Lemma autoBalance_settles_witness :
  exists c',
    charge (perform_all
              (perform_all (constructor None)
                           (repeat (AccumulateCharge (Fin 1)) 10))
              (repeat AutoBalance 25)) = Fin c'
    /\ c' == 0.5.
Proof.
  eapply (autoBalance_settles
            (perform_all (constructor None)
                         (repeat (AccumulateCharge (Fin 1)) 10))).
  - vm_compute. reflexivity.
  - split; apply Qle_bool_iff; reflexivity.
  - lia.
Defined.

(** With the default threshold 0.75 and a charge between 0 and 1 the
    multiplier stays between 0.950 and 1.050: the capacitor moves a
    price by five percent at most. *)
Theorem multiplier_within_five_percent (this : t) (c : Q) :
  balanceThreshold this = Fin 0.75 ->
  charge this = Fin c -> 0 <= c <= 1 ->
  exists m,
    multiplier (getPriceImpact this) = Decimal 3 (Fin m)
    /\ 0.95 <= m <= 1.05.
Proof.
  intros Hbt Hc [Hlo Hhi]. unfold getPriceImpact, getChargeStatus, gtb.
  rewrite Hbt, Hc. cbn [sub add neg mul ltb].
  pose proof (round_half_up_between 3 950 1050) as Hr.
  change (pow10 3) with 1000 in Hr.
  change (inject_Z 950) with 950 in Hr.
  change (inject_Z 1050) with 1050 in Hr.
  assert (Hbig : forall q, q <= 2 -> q < inject_Z (10 ^ 21)).
  { intros q Hq. apply Qle_lt_trans with (y := 2); [exact Hq|reflexivity]. }
  destruct (Qltb 0.75 c) eqn:E1.
  - apply Qltb_true in E1. simpl (String.eqb _ _). cbn [multiplier].
    rewrite FairPricingFacts.toFixed_nonneg by (try apply Hbig; lra).
    eexists. split; [reflexivity|].
    specialize (Hr (1 + (c + - (0.75)) * 0.2)). lra.
  - apply Qltb_false in E1. destruct (Qltb c (1 + - (0.75))) eqn:E2.
    + apply Qltb_true in E2. simpl (String.eqb _ _). cbn [multiplier].
      rewrite FairPricingFacts.toFixed_nonneg by (try apply Hbig; lra).
      eexists. split; [reflexivity|].
      specialize (Hr (1 + - ((1 + - (0.75) + - c) * 0.2))). lra.
    + simpl (String.eqb _ _). cbn [multiplier].
      eexists. split; [reflexivity|]. split; apply Qle_bool_iff; reflexivity.
Qed.

Lemma multiplier_within_five_percent_witness :
  exists m,
    multiplier (getPriceImpact
                  (perform_all (constructor None)
                               (repeat (AccumulateCharge (Fin 1)) 7)))
    = Decimal 3 (Fin m)
    /\ 0.95 <= m <= 1.05.
Proof.
  eapply (multiplier_within_five_percent
            (perform_all (constructor None)
                         (repeat (AccumulateCharge (Fin 1)) 7))).
  - reflexivity.
  - vm_compute. reflexivity.
  - split; apply Qle_bool_iff; reflexivity.
Defined.




End CapacitorExtra.

(** ** ALCMarket: stabilization, trend and the rate tables *)

Module MarketExtra.
Import ALCMarket ALCMarketOps ExtraSpec.





Lemma adjustMarketValue_fields (this : t) (v vol r : Q) :
  currentValue this = Fin v -> volatility this = Fin vol ->
  currentValue (snd (adjustMarketValue this (Fin r)))
  = Fin (v + v * ((r + - (1)) * vol))
  /\ volatility (snd (adjustMarketValue this (Fin r))) = Fin vol.
Proof.
  intros Hv Hvol. unfold adjustMarketValue.
  cbn [snd currentValue volatility]. rewrite Hv, Hvol. split; reflexivity.
Qed.




(** In exact arithmetic a positive value stays positive. *)
Lemma adjust_all_positive (ratios : list Q) (this : t) (v vol : Q) :
  currentValue this = Fin v -> volatility this = Fin vol ->
  0 < v -> 0 < vol <= 1 ->
  Forall (fun r => 0 < r) ratios ->
  exists v',
    currentValue (adjust_all this (map Fin ratios)) = Fin v' /\ 0 < v'.
Proof.
  revert this v. induction ratios as [|r ratios IH];
    intros this v Hv Hvol Hpos Hrange Hratios.
  - exists v. split; assumption.
  - inversion Hratios as [|r' rs Hr Hrs]; subst.
    destruct (adjustMarketValue_fields this v vol r Hv Hvol) as [Hv1 Hvol1].
    cbn [map adjust_all fold_left].
    apply (IH _ _ Hv1 Hvol1); [|exact Hrange|exact Hrs].
    assert (Hrv : 0 < r * vol) by (apply Qmult_lt_0_compat; lra).
    assert (E : v + v * ((r + - (1)) * vol) == v * (1 + (r * vol - vol)))
      by ring.
    rewrite E. apply Qmult_lt_0_compat; lra.
Qed.

(** With a volatility between 0 and 1 and positive ratios a positive
    value never becomes negative, through any number of adjustments.
    (Rounding can take it to 0, which exact arithmetic would not.) *)
Theorem adjustMarketValue_never_negative
        (ratios : list Q) (this : t) (v vol : Q) :
  currentValue this = Fin v -> volatility this = Fin vol ->
  0 < v -> 0 < vol <= 1 ->
  Forall (fun r => 0 < r) ratios ->
  (currentValue (adjust_all this (map Fin ratios)) <? Fin 0)%js = false.
Proof.
  intros Hv Hvol Hpos Hrange Hratios.
  destruct (adjust_all_positive ratios this v vol Hv Hvol Hpos Hrange Hratios)
    as (v' & Hv' & Hpos').
  rewrite Hv'. cbn [ltb]. apply Qltb_false. lra.
Qed.

Lemma adjustMarketValue_never_negative_witness :
  (currentValue
     (adjust_all (constructor {| Config.current_usd_value := Fin 0.5;
                                 Config.daily_volume := Fin 1000;
                                 Config.trend_percent := Fin 0;
                                 Config.volatility := Fin 1 |})
                 (map Fin [0.1; 0.1; 2])) <? Fin 0)%js = false.
Proof.
  apply (adjustMarketValue_never_negative [0.1; 0.1; 2] _ 0.5 1).
  - reflexivity.
  - reflexivity.
  - reflexivity.
  - split; [reflexivity|apply Qle_bool_iff; reflexivity].
  - repeat constructor.
Defined.

(** Nothing keeps the value above zero: with volatility 1 a ratio of 0
    takes any value to 0, and the next adjustment stores the trend
    [NaN]. *)
Theorem adjustMarketValue_can_reach_zero (this : t) (v r : Q) :
  currentValue this = Fin v -> volatility this = Fin 1 ->
  let this1 := snd (adjustMarketValue this (Fin 0)) in
  let this2 := snd (adjustMarketValue this1 (Fin r)) in
  (exists v1, currentValue this1 = Fin v1 /\ v1 == 0)
  /\ trendPercent this2 = NaN.
Proof.
  intros Hv Hvol this1 this2.
  destruct (adjustMarketValue_fields this v 1 0 Hv Hvol) as [Hv1 Hvol1].
  fold this1 in Hv1, Hvol1.
  assert (H0 : v + v * ((0 + - (1)) * 1) == 0) by ring.
  split; [eexists; split; [exact Hv1|exact H0]|].
  subst this2. unfold adjustMarketValue at 1.
  cbn [snd trendPercent]. rewrite Hv1, Hvol1. cbn [add sub mul neg div].
  apply Qeq_bool_iff in H0. rewrite H0.
  assert (E : Qeq_bool
                (v + v * ((0 + - (1)) * 1)
                 + (v + v * ((0 + - (1)) * 1)) * ((r + - (1)) * 1)
                 + - (v + v * ((0 + - (1)) * 1))) 0 = true).
  { apply Qeq_bool_iff. apply Qeq_bool_iff in H0. rewrite H0. ring. }
  rewrite E. reflexivity.
Qed.

Lemma adjustMarketValue_can_reach_zero_witness :
  let this :=
    constructor {| Config.current_usd_value := Fin 0.5;
                   Config.daily_volume := Fin 1000;
                   Config.trend_percent := Fin 0;
                   Config.volatility := Fin 1 |} in
  trendPercent
    (snd (adjustMarketValue (snd (adjustMarketValue this (Fin 0))) (Fin 2)))
  = NaN.
Proof.
  intros this.
  apply (adjustMarketValue_can_reach_zero this 0.5 2); reflexivity.
Defined.



End MarketExtra.

(** ** DynamicPricing: fees, the fairness clamp and the other formulas *)

Module DynamicExtra.
Import DynamicPricing DynamicPricingOps ExtraSpec.

(** Rounding a non-negative value does not take it below a bound that is
    a multiple of [10^-digits]. *)
Lemma toFixed_value_ge (digits : nat) (lo : Z) (q : Q) :
  0 <= q -> inject_Z lo <= q * pow10 digits ->
  exists r,
    toFixed digits (Fin q) = Decimal digits (Fin r)
    /\ inject_Z lo <= r * pow10 digits.
Proof.
  intros H0 Hlo. unfold toFixed.
  destruct (Qle_bool (inject_Z (10 ^ 21)) (Qabs q)).
  - exists q. split; [reflexivity|exact Hlo].
  - assert (E : Qltb q 0 = false) by (apply Qltb_false; exact H0).
    rewrite E. eexists. split; [reflexivity|].
    unfold round_half_up. pose proof (pow10_pos digits) as Hp.
    assert (Er : inject_Z (Qfloor (q * pow10 digits + (1 # 2))) / pow10 digits
                 * pow10 digits
                 == inject_Z (Qfloor (q * pow10 digits + (1 # 2)))).
    { field. intros E0. rewrite E0 in Hp. apply (Qlt_irrefl 0 Hp). }
    rewrite Er. rewrite <- Zle_Qle.
    rewrite <- (Qfloor_Z lo). apply Qfloor_resp_le. lra.
Qed.

(** The fee charged is never below 0.10: it is 0.10 for an amount up to
    10, and from 10 on it is the one percent fee. *)
Theorem calculateTransactionFee_minimum (amount : Q) :
  let r := calculateTransactionFee (Fin amount) in
  (exists fee, actual_fee_alc r = Decimal 2 (Fin fee) /\ 0.1 <= fee)
  /\ (amount <= 10 ->
      exists fee, actual_fee_alc r = Decimal 2 (Fin fee) /\ fee == 0.1)
  /\ (10 <= amount -> actual_fee_alc r = calculated_fee_alc r).
Proof.
  cbv zeta. unfold calculateTransactionFee, Math.max.
  cbn [actual_fee_alc calculated_fee_alc mul is_NaN orb ltb].
  destruct (Qltb (amount * 0.01) 0.1) eqn:E.
  - apply Qltb_true in E. split; [|split].
    + eexists. split; [vm_compute; reflexivity|]. apply Qle_bool_iff. reflexivity.
    + intros _. eexists. split; [vm_compute; reflexivity|]. reflexivity.
    + intros H. lra.
  - apply Qltb_false in E.
    destruct (toFixed_value_ge 2 10 (amount * 0.01)) as (fee & Hfee & Hge).
    { lra. }
    { change (pow10 2) with 100. change (inject_Z 10) with 10. lra. }
    change (pow10 2) with 100 in Hge. change (inject_Z 10) with 10 in Hge.
    split; [|split].
    + exists fee. split; [exact Hfee|lra].
    + intros H.
      rewrite FairPricingFacts.toFixed_nonneg;
        [|lra|apply Qle_lt_trans with (y := 1); [lra|reflexivity]].
      eexists. split; [reflexivity|].
      pose proof (round_half_up_between 2 10 10 (amount * 0.01)) as Hr.
      change (pow10 2) with 100 in Hr. change (inject_Z 10) with 10 in Hr.
      lra.
    + intros _. reflexivity.
Qed.

Lemma calculateTransactionFee_minimum_witness :
  exists fee,
    actual_fee_alc (calculateTransactionFee (Fin 5)) = Decimal 2 (Fin fee)
    /\ fee == 0.1.
Proof.
  apply (proj1 (proj2 (calculateTransactionFee_minimum 5))).
  apply Qle_bool_iff. reflexivity.
Defined.




(** A negative market average disables the clamp: against it every
    price is verified as it is. *)
Theorem validateFairPricing_negative_average (price marketAverage : Q) :
  marketAverage < 0 ->
  exists d,
    validateFairPricing (Fin price) (Fin marketAverage)
    = Verified (Fin price) (Fin marketAverage) d.
Proof.
  unfold validateFairPricing, gtb. cbn [sub add neg Math.abs div].
  change (price + - marketAverage) with (price - marketAverage).
  intros Hm.
  assert (E0 : Qeq_bool marketAverage 0 = false)
    by (apply Qeq_bool_false; lra).
  rewrite E0. cbn [ltb].
  assert (E : Qltb 0.25 (Qabs (price - marketAverage) / marketAverage) = false).
  { apply Qltb_false.
    pose proof (Qabs_nonneg (price - marketAverage)) as Habs.
    assert (Hq : Qabs (price - marketAverage) / marketAverage
                 == - (Qabs (price - marketAverage) / - marketAverage)).
    { field. lra. }
    rewrite Hq.
    assert (0 <= Qabs (price - marketAverage) / - marketAverage).
    { apply Qle_shift_div_l; lra. }
    lra. }
  rewrite E. eexists. reflexivity.
Qed.

Lemma validateFairPricing_negative_average_witness :
  exists d,
    validateFairPricing (Fin 200) (Fin (-100))
    = Verified (Fin 200) (Fin (-100)) d.
Proof.
  apply (validateFairPricing_negative_average 200 (-100)).
  reflexivity.
Defined.

(** What a table owns under a key: case analysis on the keys. *)
Ltac own_cases H :=
  cbn [own tierPricing supportCosts typeMultipliers utilityRates] in H;
  repeat match type of H with
         | context [if ?c then _ else _] => destruct c
         end;
  try discriminate H; injection H as H.

(** For a listed tier and a listed support the total is the tier price
    plus the support cost plus 5 per feature, a number that is not
    negative; every tier but [free] is a monthly subscription. *)
Theorem calculateFeatureCost_total
        (tier support : string) (features : list string) (base cost : num) :
  own tierPricing tier = Some base ->
  own supportCosts support = Some cost ->
  let r := calculateFeatureCost
             (FeatureParams.mk (Some tier) (Some features) (Some support)) in
  exists b s total,
    base = Fin b /\ cost = Fin s
    /\ total_cost_alc r = Sum (Fin total)
    /\ total == b + s + 5 * inject_Z (Z.of_nat (length features))
    /\ 0 <= total
    /\ feature_count r = length features
    /\ monthly_subscription r = negb (String.eqb tier "free").
Proof.
  intros Ht Hs. cbv zeta. unfold calculateFeatureCost, get.
  cbn [FeatureParams.tier FeatureParams.features FeatureParams.support
       default total_cost_alc feature_count monthly_subscription].
  rewrite Ht, Hs.
  assert (Hn : 0 <= inject_Z (Z.of_nat (length features)))
    by (change 0 with (inject_Z 0); rewrite <- Zle_Qle; lia).
  unfold FairPricing.length_num.
  own_cases Ht; own_cases Hs; subst base cost;
    eexists; eexists; eexists;
    (split; [reflexivity|]); (split; [reflexivity|]);
    (split; [reflexivity|]);
    (split; [ring|]); (split; [lra|]); split; reflexivity.
Qed.

Lemma calculateFeatureCost_total_witness :
  let r := calculateFeatureCost
             (FeatureParams.mk (Some "premium"%string)
                               (Some ["a"; "b"]%string)
                               (Some "priority"%string)) in
  exists total,
    total_cost_alc r = Sum (Fin total)
    /\ total == 50 + 15 + 5 * 2.
Proof.
  intros r.
  destruct (calculateFeatureCost_total
              "premium" "priority" ["a"; "b"]%string (Fin 50) (Fin 15)
              eq_refl eq_refl)
    as (b & s & total & Hb & Hs & Ht & Heq & _).
  injection Hb as <-. injection Hs as <-.
  exists total. split; [exact Ht|exact Heq].
Defined.

(** A tier that is neither listed nor a member of [Object.prototype]
    costs nothing, and is reported as a monthly subscription all the
    same. *)
Theorem calculateFeatureCost_unknown_tier
        (tier : string) (features : option (list string))
        (support : option string) :
  own tierPricing tier = None ->
  Object_prototype tier = VUndefined ->
  let r := calculateFeatureCost (FeatureParams.mk (Some tier) features support) in
  base_cost_alc r = VNumber (Fin 0)
  /\ monthly_subscription r = true.
Proof.
  intros Ho Hp. cbv zeta. unfold calculateFeatureCost, get.
  cbn [FeatureParams.tier default base_cost_alc monthly_subscription].
  rewrite Ho, Hp. split; [reflexivity|].
  destruct (String.eqb_spec tier "free") as [->|Hne]; [discriminate Ho|reflexivity].
Qed.

Lemma calculateFeatureCost_unknown_tier_witness :
  let r := calculateFeatureCost
             (FeatureParams.mk (Some "platinum"%string) None None) in
  base_cost_alc r = VNumber (Fin 0) /\ monthly_subscription r = true.
Proof.
  apply (calculateFeatureCost_unknown_tier "platinum" None None); reflexivity.
Defined.




(** A supply of zero is not guarded: with no demand either the stored
    multiplier is [NaN] and the market is reported [balanced]. *)
Theorem adjustRealTime_zero_supply
        (this : t) (supply demand recentActivity : Q) :
  supply == 0 -> demand == 0 ->
  let r := adjustRealTime this
             (ActivityData.mk (Some (Fin supply)) (Some (Fin demand))
                              (Some (Fin recentActivity))) in
  demandMultiplier (snd r) = NaN
  /\ market_state (fst r) = "balanced"%string.
Proof.
  intros Hs Hd. cbv zeta. unfold adjustRealTime, gtb.
  cbn [ActivityData.supply ActivityData.demand ActivityData.recentActivity
       default fst snd demandMultiplier market_state div add].
  assert (E0 : Qeq_bool supply 0 = true) by (apply Qeq_bool_iff, Hs).
  assert (E1 : Qeq_bool 1000 0 = false) by reflexivity.
  assert (E2 : Qeq_bool demand 0 = true) by (apply Qeq_bool_iff, Hd).
  rewrite E0, E1, E2. cbn [add]. split; reflexivity.
Qed.

Lemma adjustRealTime_zero_supply_witness :
  let r := adjustRealTime constructor
             (ActivityData.mk (Some (Fin 0)) (Some (Fin 0)) (Some (Fin 100))) in
  demandMultiplier (snd r) = NaN
  /\ market_state (fst r) = "balanced"%string.
Proof.
  apply (adjustRealTime_zero_supply constructor 0 0 100
           (Qeq_refl 0) (Qeq_refl 0)).
Defined.

(** For a listed type and a listed utility the token value is between 5
    and 120, and a larger supply never gives a larger value. *)
Theorem calculateTokenValue_scarcity
        (type utility : string) (multiplier rate : num) (s1 s2 : Q) :
  own typeMultipliers type = Some multiplier ->
  own utilityRates utility = Some rate ->
  s1 <= s2 ->
  let value scarcity :=
    base_value_alc
      (calculateTokenValue
         (TokenParams.mk (Some type) (Some utility) (Some (Fin scarcity)))) in
  exists v1 v2,
    value s1 = Fin v1 /\ value s2 = Fin v2
    /\ v2 <= v1 /\ 5 <= v2 /\ v1 <= 120.
Proof.
  intros Ht Hu Hle. cbv zeta. unfold calculateTokenValue, get.
  cbn [TokenParams.type TokenParams.utility TokenParams.scarcity default
       base_value_alc].
  rewrite Ht, Hu. cbn [ltb].
  own_cases Ht; own_cases Hu; subst multiplier rate;
    cbn [value_or value_truthy truthy ToNumber];
    destruct (Qltb s1 100) eqn:A1; destruct (Qltb s1 500) eqn:B1;
    destruct (Qltb s2 100) eqn:A2; destruct (Qltb s2 500) eqn:B2;
    try (apply Qltb_true in A1); try (apply Qltb_false in A1);
    try (apply Qltb_true in B1); try (apply Qltb_false in B1);
    try (apply Qltb_true in A2); try (apply Qltb_false in A2);
    try (apply Qltb_true in B2); try (apply Qltb_false in B2);
    try (exfalso; lra);
    eexists; eexists;
    (split; [vm_compute; reflexivity|]);
    (split; [vm_compute; reflexivity|]);
    repeat split; apply Qle_bool_iff; reflexivity.
Qed.

Lemma calculateTokenValue_scarcity_witness :
  let value scarcity :=
    base_value_alc
      (calculateTokenValue
         (TokenParams.mk (Some "limited"%string) (Some "high"%string)
                         (Some (Fin scarcity)))) in
  exists v1 v2,
    value 50 = Fin v1 /\ value 1000 = Fin v2
    /\ v2 <= v1 /\ 5 <= v2 /\ v1 <= 120.
Proof.
  apply (calculateTokenValue_scarcity "limited" "high" (Fin 3.0) (Fin 20)
                                      50 1000).
  - reflexivity.
  - reflexivity.
  - apply Qle_bool_iff. reflexivity.
Defined.

End DynamicExtra.
